(** * ulauncher-openai-translate: the keyword-query and preferences handlers

    A shallow embedding of [main.py].  The plugin answers two host events:
    a keyword query ([KeywordQueryEventListener.on_event]) and a preferences
    load or update ([PreferencesEventListener.on_event]).  Both mutate the
    extension object (the cached OpenAI client and the base URL it was built
    for) and call into the [openai] library; the query handler also renders a
    result list.  The embedding threads the extension object and a trace of
    the calls that leave the plugin through a small state-and-exception monad. *)

From Stdlib Require Import NArith Lia.
From stdpp Require Import base option list strings gmap.

Open Scope N_scope.

(** ** Python strings

    A Python [str] is a sequence of Unicode code points.  The handlers strip
    preference values, the query and the model's answer, and [str.strip]
    works on code points (U+3000, the ideographic space, is whitespace), so
    the embedding keeps code points rather than bytes. *)

Abbreviation str := (list N).

(** The code points of an ASCII literal of the source. *)
Definition py (s : string) : str :=
  Ascii.N_of_ascii <$> String.list_ascii_of_string s.
Arguments py : simpl never.

(** [str.isspace] on one code point, as CPython decides it: bidirectional
    type WS, B or S, or general category Zs. *)
Definition isspace (c : N) : bool :=
  ((9 <=? c) && (c <=? 13)) || ((28 <=? c) && (c <=? 32))
  || (c =? 133) || (c =? 160) || (c =? 5760)
  || ((8192 <=? c) && (c <=? 8202))
  || (c =? 8232) || (c =? 8233) || (c =? 8239) || (c =? 8287)
  || (c =? 12288).

Fixpoint lstrip (s : str) : str :=
  match s with
  | c :: s' => if isspace c then lstrip s' else s
  | [] => []
  end.

Definition rstrip (s : str) : str := reverse (lstrip (reverse s)).

(** [s.strip()] with no argument. *)
Definition strip (s : str) : str := rstrip (lstrip s).

(** Truth value of a [str]: only the empty string is false. *)
Definition truthy (s : str) : bool :=
  match s with [] => false | _ :: _ => true end.

(** Truth value of a value that is [None] or a [str]. *)
Definition truthy_opt (o : option str) : bool :=
  match o with None => false | Some s => truthy s end.

(** ** Objects of the host and of the [openai] library *)

(** An instance of a class derived from [Exception]; [exc_str] is what
    [str(e)], and so an f-string, shows of it. *)
Record Exception := { exc_class : string; exc_str : str }.

(** The result of evaluating an expression or calling a function. *)
Inductive outcome (A : Type) : Type :=
| Return (a : A)
| Raise (e : Exception).
Arguments Return {A} a.
Arguments Raise {A} e.

(** An [OpenAI] client object; the plugin never looks inside one, so an
    instance is its identity. *)
Record OpenAIClient := { client_id : N }.

(** A chat message, a dict with the keys [role] and [content]. *)
Record Message := { role : str; content : str }.

(** The part of a chat completion the handler reads:
    [chat_completion.choices[0].message.content], where the content of a
    message may be [None]. *)
Record ChatCompletionMessage := { message_content : option str }.
Record Choice := { message : ChatCompletionMessage }.
Record ChatCompletion := { choices : list Choice }.

(** [CopyToClipboardAction(text)], the one action the plugin binds to Enter. *)
Inductive Action := CopyToClipboardAction (text : str).

(** [ExtensionResultItem]: icon, title, subtitle, whether the host may
    highlight the row, and the action run on Enter.  The constructor's
    defaults are [highlightable=True] and [on_enter=None]. *)
Record ExtensionResultItem := {
  icon : str;
  name : str;
  description : str;
  highlightable : bool;
  on_enter : option Action
}.

Inductive RenderResultListAction :=
| RenderResultList (items : list ExtensionResultItem).

(** [event.get_argument()] is the text after the keyword, or [None]. *)
Record KeywordQueryEvent := { get_argument : option str }.

(** The extension object: the host's preferences dict and the two
    attributes the plugin keeps on it.  [_current_base_url] is [None] while
    the attribute has never been assigned, which is what
    [getattr(extension, '_current_base_url', None)] reads then. *)
Record Extension := {
  preferences : gmap string str;
  openai_client : option OpenAIClient;
  _current_base_url : option str
}.

(** [OpenAITranslateExtension.__init__] leaves no client. *)
Definition OpenAITranslateExtension (prefs : gmap string str) : Extension :=
  {| preferences := prefs; openai_client := None; _current_base_url := None |}.

(** What the [openai] library and the interpreter do when called: the
    constructor [OpenAI] applied to a dict of keyword arguments, the request
    [client.chat.completions.create(messages=..., model=...)], and the
    formatting of a dict inside an f-string. *)
Record Env := {
  OpenAI : gmap string str -> outcome OpenAIClient;
  create : OpenAIClient -> list Message -> str -> outcome ChatCompletion;
  format_dict : gmap string str -> str
}.

(** Calls that leave the plugin, in the order they happen. *)
Inductive Effect :=
| CallOpenAI (kwargs : gmap string str)
| CallCreate (client : OpenAIClient) (messages : list Message) (model : str)
| LoggerError (msg : str)
| LoggerInfo (msg : str).

(** ** The monad of a handler: extension object, trace, exceptions *)

Record World := { extension : Extension; trace : list Effect }.

Definition M (A : Type) : Type := World -> outcome A * World.

#[export] Instance M_ret : MRet M := fun A a w => (Return a, w).

#[export] Instance M_bind : MBind M := fun A B k m w =>
  match m w with
  | (Return a, w') => k a w'
  | (Raise e, w') => (Raise e, w')
  end.

Definition raise {A} (e : Exception) : M A := fun w => (Raise e, w).

(** [try: body  except Exception as e: handler e]; what the body did to the
    extension object before it raised stays done. *)
Definition try_except {A} (body : M A) (handler : Exception -> M A) : M A :=
  fun w =>
    match body w with
    | (Return a, w') => (Return a, w')
    | (Raise e, w') => handler e w'
    end.

Definition get_extension : M Extension := fun w => (Return (extension w), w).

Definition emit (ev : Effect) : M unit :=
  fun w => (Return tt, {| extension := extension w; trace := trace w ++ [ev] |}).

Definition lift {A} (o : outcome A) : M A := fun w => (o, w).

(** [extension.openai_client = c] *)
Definition set_openai_client (c : option OpenAIClient) : M unit :=
  fun w =>
    let x := extension w in
    (Return tt,
     {| extension := {| preferences := preferences x;
                        openai_client := c;
                        _current_base_url := _current_base_url x |};
        trace := trace w |}).

(** [extension._current_base_url = u] *)
Definition set_current_base_url (u : str) : M unit :=
  fun w =>
    let x := extension w in
    (Return tt,
     {| extension := {| preferences := preferences x;
                        openai_client := openai_client x;
                        _current_base_url := Some u |};
        trace := trace w |}).

(** Run a handler on an extension object, from an empty trace. *)
Definition run {A} (m : M A) (x : Extension) : outcome A * World :=
  m {| extension := x; trace := [] |}.

(** ** Expressions of the handlers that may raise *)

(** The constructor call on [client_kwargs], recorded in the trace. *)
Definition new_OpenAI (env : Env) (client_kwargs : gmap string str) : M OpenAIClient :=
  emit (CallOpenAI client_kwargs);; lift (OpenAI env client_kwargs).

(** [extension.openai_client.chat.completions.create(messages=..., model=...)]:
    the attribute is read when the call is made, and [None] has no
    attribute [chat]. *)
Definition chat_completions_create (env : Env) (messages : list Message)
    (model : str) : M ChatCompletion :=
  extension ← get_extension;
  match openai_client extension with
  | None =>
      raise {| exc_class := "AttributeError";
               exc_str := py "'NoneType' object has no attribute 'chat'" |}
  | Some client =>
      emit (CallCreate client messages model);;
      lift (create env client messages model)
  end.

(** [l[0]] *)
Definition item0 {A} (l : list A) : M A :=
  match l with
  | a :: _ => mret a
  | [] => raise {| exc_class := "IndexError";
                   exc_str := py "list index out of range" |}
  end.

(** [v.strip()] for a value that is a [str] or [None]. *)
Definition strip_method (v : option str) : M str :=
  match v with
  | Some s => mret (strip s)
  | None => raise {| exc_class := "AttributeError";
                     exc_str := py "'NoneType' object has no attribute 'strip'" |}
  end.

(** The keyword arguments both handlers build for the constructor:
    [{"api_key": openai_api_key}], and [base_url] only when it is not empty. *)
Definition client_kwargs (openai_api_key base_url : str) : gmap string str :=
  let client_kwargs : gmap string str := {[ "api_key" := openai_api_key ]} in
  if truthy base_url then <[ "base_url" := base_url ]> client_kwargs
  else client_kwargs.

(** The preference values as the handlers read them. *)
Definition openai_api_key (preferences : gmap string str) : option str :=
  preferences !! "openai_api_key".
Definition base_url (preferences : gmap string str) : str :=
  strip (default (py "") (preferences !! "base_url")).
Definition custom_prompt (preferences : gmap string str) : str :=
  strip (default (py "") (preferences !! "custom_prompt")).
Definition model_name (preferences : gmap string str) : str :=
  strip (default (py "gpt-4o-mini") (preferences !! "model_name")).

Definition default_system_prompt : str :=
  py "You are a useful translation assistant. Please translate my Chinese into English and translate all non-Chinese into Chinese. Everything I send you is content that needs translation; you only need to provide the translation results. The translation results should conform to Chinese language habits.".

(** ** The keyword-query handler *)

Module KeywordQueryEventListener.

Definition _need_client_update (extension : Extension) (new_base_url : str) : bool :=
  let current_base_url := _current_base_url extension in
  bool_decide (current_base_url ≠ Some new_base_url).

Definition on_event (env : Env) (event : KeywordQueryEvent) : M RenderResultListAction :=
  let items : list ExtensionResultItem := [] in
  let query := get_argument event in
  extension ← get_extension;
  let openai_api_key := openai_api_key (preferences extension) in
  let base_url := base_url (preferences extension) in
  let custom_prompt := custom_prompt (preferences extension) in
  let model_name := model_name (preferences extension) in
  match openai_api_key with
  | None | Some [] =>
      mret (RenderResultList (items ++ [
        {| icon := py "images/icon.png";
           name := py "OpenAI API Key Missing";
           description := py "Please set your OpenAI API Key in Ulauncher preferences.";
           highlightable := false;
           on_enter := None |} ]))
  | Some openai_api_key =>
      (* the [return] of the [except] clause, if it was taken *)
      returned ←
        (if bool_decide (openai_client extension = None)
            || _need_client_update extension base_url
         then
           try_except
             (client ← new_OpenAI env (client_kwargs openai_api_key base_url);
              set_openai_client (Some client);;
              set_current_base_url base_url;;
              mret None)
             (fun e =>
                emit (LoggerError (py "Error initializing OpenAI client: " ++ exc_str e));;
                mret (Some (RenderResultList (items ++ [
                  {| icon := py "images/icon.png";
                     name := py "Error initializing OpenAI client";
                     description := exc_str e;
                     highlightable := false;
                     on_enter := None |} ]))))
         else mret None);
      match returned with
      | Some action => mret action
      | None =>
          match query with
          | None | Some [] =>
              mret (RenderResultList (items ++ [
                {| icon := py "images/icon.png";
                   name := py "Type something to translate";
                   description := py "Enter text to translate using OpenAI";
                   highlightable := false;
                   on_enter := None |} ]))
          | Some query =>
              (* every way out of the [try] statement renders [items] *)
              items ←
                try_except
                  (let text_to_translate := strip query in
                   if negb (truthy text_to_translate) then
                     mret (items ++ [
                       {| icon := py "images/icon.png";
                          name := py "Type something to translate";
                          description := py "Enter text to translate using OpenAI";
                          highlightable := false;
                          on_enter := None |} ])
                   else
                     let messages : list Message := [] in
                     let messages :=
                       if truthy custom_prompt then
                         messages ++ [ {| role := py "system"; content := custom_prompt |} ]
                       else
                         messages ++ [ {| role := py "system"; content := default_system_prompt |} ] in
                     let messages :=
                       messages ++ [ {| role := py "user"; content := text_to_translate |} ] in
                     chat_completion ← chat_completions_create env messages model_name;
                     choice ← item0 (choices chat_completion);
                     translated_text ← strip_method (message_content (message choice));
                     mret (items ++ [
                       {| icon := py "images/icon.png";
                          name := translated_text;
                          description := py "Press Enter to copy to clipboard";
                          highlightable := true;
                          on_enter := Some (CopyToClipboardAction translated_text) |} ]))
                  (fun e =>
                     emit (LoggerError (py "Error during translation: " ++ exc_str e));;
                     mret (items ++ [
                       {| icon := py "images/icon.png";
                          name := py "Error during translation";
                          description := exc_str e ++ 10 :: py "Check logs for details";
                          highlightable := false;
                          on_enter := None |} ]));
              mret (RenderResultList items)
          end
      end
  end.

End KeywordQueryEventListener.

(** ** The preferences handler *)

(** The two events the handler is subscribed to; it reads neither. *)
Inductive PreferencesEvents :=
| PreferencesEvent (preferences : gmap string str)
| PreferencesUpdateEvent (id : string) (old_value new_value : str).

Module PreferencesEventListener.

Definition on_event (env : Env) (event : PreferencesEvents) : M unit :=
  extension ← get_extension;
  emit (LoggerInfo (py "Preferences updated: " ++ format_dict env (preferences extension)));;
  let openai_api_key := openai_api_key (preferences extension) in
  let base_url := base_url (preferences extension) in
  match openai_api_key with
  | None | Some [] => set_openai_client None
  | Some openai_api_key =>
      try_except
        (client ← new_OpenAI env (client_kwargs openai_api_key base_url);
         set_openai_client (Some client);;
         set_current_base_url base_url)
        (fun e =>
           emit (LoggerError (py "Error updating OpenAI client: " ++ exc_str e));;
           set_openai_client None)
  end.

End PreferencesEventListener.

(** * The paths of the keyword-query handler *)

Definition non_actionable (i : ExtensionResultItem) : Prop :=
  highlightable i = false /\ on_enter i = None.

Definition actionable (i : ExtensionResultItem) : Prop :=
  highlightable i = true /\ exists a, on_enter i = Some a.

(** The constructor calls and the chat-completion requests of a trace. *)
Definition constructions (tr : list Effect) : list (gmap string str) :=
  omap (fun ev => match ev with CallOpenAI kw => Some kw | _ => None end) tr.

Definition requests (tr : list Effect) : list (OpenAIClient * list Message * str) :=
  omap (fun ev => match ev with
                  | CallCreate c ms m => Some (c, ms, m)
                  | _ => None
                  end) tr.

(** The test that guards the construction of a client in the query handler. *)
Definition client_needed (x : Extension) : bool :=
  bool_decide (openai_client x = None)
  || KeywordQueryEventListener._need_client_update x (base_url (preferences x)).

(** The extension object after a client [c] was built for base URL [u]. *)
Definition with_client (x : Extension) (c : OpenAIClient) (u : str) : Extension :=
  {| preferences := preferences x;
     openai_client := Some c;
     _current_base_url := Some u |}.

(** The host replaces the preferences between two events. *)
Definition with_preferences (x : Extension) (prefs : gmap string str) : Extension :=
  {| preferences := prefs;
     openai_client := openai_client x;
     _current_base_url := _current_base_url x |}.

Definition system_content (prefs : gmap string str) : str :=
  if truthy (custom_prompt prefs) then custom_prompt prefs
  else default_system_prompt.

Definition request_messages (prefs : gmap string str) (text : str) : list Message :=
  [ {| role := py "system"; content := system_content prefs |};
    {| role := py "user"; content := text |} ].

Definition item_key_missing : ExtensionResultItem :=
  {| icon := py "images/icon.png";
     name := py "OpenAI API Key Missing";
     description := py "Please set your OpenAI API Key in Ulauncher preferences.";
     highlightable := false; on_enter := None |}.

Definition item_init_error (e : Exception) : ExtensionResultItem :=
  {| icon := py "images/icon.png";
     name := py "Error initializing OpenAI client";
     description := exc_str e;
     highlightable := false; on_enter := None |}.

Definition item_type_something : ExtensionResultItem :=
  {| icon := py "images/icon.png";
     name := py "Type something to translate";
     description := py "Enter text to translate using OpenAI";
     highlightable := false; on_enter := None |}.

Definition item_translation_error (e : Exception) : ExtensionResultItem :=
  {| icon := py "images/icon.png";
     name := py "Error during translation";
     description := exc_str e ++ 10 :: py "Check logs for details";
     highlightable := false; on_enter := None |}.

Definition item_translated (text : str) : ExtensionResultItem :=
  {| icon := py "images/icon.png";
     name := text;
     description := py "Press Enter to copy to clipboard";
     highlightable := true;
     on_enter := Some (CopyToClipboardAction text) |}.

(** What the answer of a request becomes inside the [try] statement: the
    stripped content of the first choice, or the exception of the request,
    of the indexing, or of the method call on [None]. *)
Definition translated_text (r : outcome ChatCompletion) : outcome str :=
  match r with
  | Raise e => Raise e
  | Return completion =>
      match choices completion with
      | [] => Raise {| exc_class := "IndexError";
                       exc_str := py "list index out of range" |}
      | choice :: _ =>
          match message_content (message choice) with
          | None => Raise {| exc_class := "AttributeError";
                             exc_str := py "'NoneType' object has no attribute 'strip'" |}
          | Some t => Return (strip t)
          end
      end
  end.

(** The client a query ends up with and the world at that point: the cached
    client when the test of [client_needed] is false, a new one otherwise. *)
Inductive reconciled (env : Env) (x : Extension) (k : str) :
    OpenAIClient -> World -> Prop :=
| reconciled_cached c :
    client_needed x = false ->
    openai_client x = Some c ->
    reconciled env x k c {| extension := x; trace := [] |}
| reconciled_built c :
    client_needed x = true ->
    OpenAI env (client_kwargs k (base_url (preferences x))) = Return c ->
    reconciled env x k c
      {| extension := with_client x c (base_url (preferences x));
         trace := [CallOpenAI (client_kwargs k (base_url (preferences x)))] |}.

(** Every run of the handler is one of six paths. *)
Inductive on_event_path (env : Env) (event : KeywordQueryEvent) (x : Extension) :
    outcome RenderResultListAction * World -> Prop :=
| path_key_missing :
    truthy_opt (openai_api_key (preferences x)) = false ->
    on_event_path env event x
      (Return (RenderResultList [item_key_missing]),
       {| extension := x; trace := [] |})
| path_init_error k e :
    openai_api_key (preferences x) = Some k -> k ≠ [] ->
    client_needed x = true ->
    OpenAI env (client_kwargs k (base_url (preferences x))) = Raise e ->
    on_event_path env event x
      (Return (RenderResultList [item_init_error e]),
       {| extension := x;
          trace := [CallOpenAI (client_kwargs k (base_url (preferences x)));
                    LoggerError (py "Error initializing OpenAI client: " ++ exc_str e)] |})
| path_no_query k c w :
    openai_api_key (preferences x) = Some k -> k ≠ [] ->
    reconciled env x k c w ->
    truthy_opt (get_argument event) = false ->
    on_event_path env event x
      (Return (RenderResultList [item_type_something]), w)
| path_blank_query k c w q :
    openai_api_key (preferences x) = Some k -> k ≠ [] ->
    reconciled env x k c w ->
    get_argument event = Some q -> q ≠ [] -> strip q = [] ->
    on_event_path env event x
      (Return (RenderResultList [item_type_something]), w)
| path_translated k c w q t :
    openai_api_key (preferences x) = Some k -> k ≠ [] ->
    reconciled env x k c w ->
    get_argument event = Some q -> strip q ≠ [] ->
    translated_text
      (create env c (request_messages (preferences x) (strip q))
         (model_name (preferences x))) = Return t ->
    on_event_path env event x
      (Return (RenderResultList [item_translated t]),
       {| extension := extension w;
          trace := trace w ++
            [CallCreate c (request_messages (preferences x) (strip q))
               (model_name (preferences x))] |})
| path_translation_error k c w q e :
    openai_api_key (preferences x) = Some k -> k ≠ [] ->
    reconciled env x k c w ->
    get_argument event = Some q -> strip q ≠ [] ->
    translated_text
      (create env c (request_messages (preferences x) (strip q))
         (model_name (preferences x))) = Raise e ->
    on_event_path env event x
      (Return (RenderResultList [item_translation_error e]),
       {| extension := extension w;
          trace := trace w ++
            [CallCreate c (request_messages (preferences x) (strip q))
               (model_name (preferences x));
             LoggerError (py "Error during translation: " ++ exc_str e)] |}).

(** * Fixtures

    Environments and inputs on which the statements below are run. *)

(** A library that builds a client and answers every request with the two
    characters U+4F60 U+597D. *)
Definition env_mock : Env :=
  {| OpenAI := fun _ => Return {| client_id := 1 |};
     create := fun _ _ _ =>
       Return {| choices :=
         [ {| message := {| message_content := Some [20320; 22909] |} |} ] |};
     format_dict := fun _ => py "{...}" |}.

(** A transport whose every request times out. *)
Definition env_timeout : Env :=
  {| OpenAI := fun _ => Return {| client_id := 1 |};
     create := fun _ _ _ =>
       Raise {| exc_class := "APITimeoutError";
                exc_str := py "Request timed out." |};
     format_dict := fun _ => py "{...}" |}.

(** A library whose constructor refuses the base URL [http://b:x], the port
    of which is not a number, and builds client 2 for any other. *)
Definition env_invalid_url : Env :=
  {| OpenAI := fun kwargs =>
       if bool_decide (kwargs !! "base_url" = Some (py "http://b:x"))
       then Raise {| exc_class := "InvalidURL";
                     exc_str := py "Invalid port: 'x'" |}
       else Return {| client_id := 2 |};
     create := fun _ _ _ =>
       Return {| choices :=
         [ {| message := {| message_content := Some [20320; 22909] |} |} ] |};
     format_dict := fun _ => py "{...}" |}.

(** An installation in which the constructor fails whatever it is given. *)
Definition env_no_client : Env :=
  {| OpenAI := fun _ =>
       Raise {| exc_class := "TypeError";
                exc_str := py "Client.__init__() got an unexpected keyword argument 'proxies'" |};
     create := fun _ _ _ =>
       Return {| choices :=
         [ {| message := {| message_content := Some [20320; 22909] |} |} ] |};
     format_dict := fun _ => py "{...}" |}.

(** The configuration of the end-to-end example. *)
Definition prefs_example : gmap string str :=
  {[ "openai_api_key" := py "k"; "base_url" := py "";
     "custom_prompt" := py ""; "model_name" := py "gpt-4o-mini" ]}.

Definition query_hello : KeywordQueryEvent := {| get_argument := Some (py "hello") |}.

(** The messages of the error records of a trace. *)
Definition logged (tr : list Effect) : list str :=
  omap (fun ev => match ev with LoggerError msg => Some msg | _ => None end) tr.

(** A library whose constructor numbers the client after the key it is
    given: client 1 for the key [k1], client 2 for any other. *)
Definition env_by_key : Env :=
  {| OpenAI := fun kwargs =>
       if bool_decide (kwargs !! "api_key" = Some (py "k1"))
       then Return {| client_id := 1 |}
       else Return {| client_id := 2 |};
     create := fun _ _ _ =>
       Return {| choices :=
         [ {| message := {| message_content := Some [20320; 22909] |} |} ] |};
     format_dict := fun _ => py "{...}" |}.

(** A service that answers with a completion of no choice at all. *)
Definition env_no_choice : Env :=
  {| OpenAI := fun _ => Return {| client_id := 1 |};
     create := fun _ _ _ => Return {| choices := [] |};
     format_dict := fun _ => py "{...}" |}.

(** * Properties *)

(** ** Stripping *)

Lemma lstrip_whitespace (ws s : str) :
  forallb isspace ws = true -> lstrip (ws ++ s) = lstrip s.
Proof.
  induction ws as [|c ws IH]; simpl; [done|].
  intros [Hc Hws]%andb_prop. rewrite Hc. auto.
Qed.

Lemma lstrip_head (c : N) (s : str) :
  isspace c = false -> lstrip (c :: s) = c :: s.
Proof. intros Hc. simpl. by rewrite Hc. Qed.

Lemma forallb_reverse (ws : str) :
  forallb isspace (reverse ws) = forallb isspace ws.
Proof.
  induction ws as [|c ws IH]; [done|].
  rewrite reverse_cons, forallb_app, IH. simpl.
  rewrite andb_true_r. apply andb_comm.
Qed.

Lemma strip_whitespace_only (ws : str) :
  forallb isspace ws = true -> strip ws = [].
Proof.
  intros Hws. unfold strip, rstrip.
  rewrite <- (app_nil_r ws), lstrip_whitespace by done. done.
Qed.

Lemma lstrip_nonspace (s : str) (a : N) :
  head s = Some a -> isspace a = false -> lstrip s = s.
Proof. destruct s as [|a' s]; [done|]. intros [= ->]. apply lstrip_head. Qed.

(** Whitespace around a core that starts and ends with something else is
    removed, and the core is left as it is. *)
Lemma strip_core (ws1 core ws2 : str) (a b : N) :
  forallb isspace ws1 = true -> forallb isspace ws2 = true ->
  head core = Some a -> isspace a = false ->
  last core = Some b -> isspace b = false ->
  strip (ws1 ++ core ++ ws2) = core.
Proof.
  intros H1 H2 Hhd Ha Hlast Hb. unfold strip, rstrip.
  rewrite lstrip_whitespace by done.
  rewrite (lstrip_nonspace (core ++ ws2) a); [|by destruct core|done].
  apply last_Some in Hlast as [core' ->].
  rewrite reverse_app, lstrip_whitespace by (by rewrite forallb_reverse).
  rewrite reverse_app, reverse_singleton. cbn [app].
  rewrite lstrip_head by done.
  by rewrite reverse_cons, reverse_involutive.
Qed.

Lemma strip_single (a : N) : isspace a = false -> strip [a] = [a].
Proof. intros Ha. unfold strip, rstrip. simpl. rewrite Ha. simpl. by rewrite Ha. Qed.

Lemma truthy_true (s : str) : truthy s = true <-> s ≠ [].
Proof. destruct s; simpl; split; congruence. Qed.

Lemma truthy_false (s : str) : truthy s = false <-> s = [].
Proof. destruct s; simpl; split; congruence. Qed.

(** ** The handler follows its paths *)

Ltac unfold_handler :=
  unfold run, KeywordQueryEventListener.on_event,
    PreferencesEventListener.on_event, new_OpenAI, chat_completions_create,
    try_except, emit, lift, get_extension, set_openai_client,
    set_current_base_url, item0, strip_method, raise;
  unfold mbind, mret, M_bind, M_ret; cbn [extension trace].

Lemma messages_built (prefs : gmap string str) (text : str) :
  (if truthy (custom_prompt prefs)
   then [] ++ [ {| role := py "system"; content := custom_prompt prefs |} ]
   else [] ++ [ {| role := py "system"; content := default_system_prompt |} ])
  ++ [ {| role := py "user"; content := text |} ]
  = request_messages prefs text.
Proof.
  unfold request_messages, system_content.
  by destruct (truthy (custom_prompt prefs)).
Qed.

Lemma client_not_needed (x : Extension) :
  client_needed x = false ->
  exists c, openai_client x = Some c
            /\ _current_base_url x = Some (base_url (preferences x)).
Proof.
  unfold client_needed, KeywordQueryEventListener._need_client_update.
  intros [Hc Hu]%orb_false_elim.
  apply bool_decide_eq_false in Hc, Hu.
  destruct (openai_client x) as [c|]; [|done].
  exists c. split; [done|].
  by destruct (decide (_current_base_url x = Some (base_url (preferences x)))).
Qed.

(** Once the client is settled, the rest of the handler is decided by the
    query and by the answer of the request. *)
Ltac after_reconciled Hkey Hrec :=
  lazymatch type of Hrec with
  | reconciled ?env ?x ?k ?c ?w =>
      let Hq := fresh "Hq" in
      let Hs := fresh "Hs" in
      let Hr := fresh "Hr" in
      destruct (get_argument _) as [[|? ?]|] eqn:Hq;
      [ exact (path_no_query env _ x k c w Hkey ltac:(done) Hrec ltac:(by rewrite Hq))
      | rewrite messages_built
      | exact (path_no_query env _ x k c w Hkey ltac:(done) Hrec ltac:(by rewrite Hq)) ];
      match goal with
      | |- context [strip ?q] =>
          destruct (truthy (strip q)) eqn:Hs;
          [ apply truthy_true in Hs
          | apply truthy_false in Hs;
            exact (path_blank_query env _ x k c w q Hkey ltac:(done) Hrec Hq
                     ltac:(done) Hs) ];
          cbn [negb extension openai_client with_client];
          try match goal with H : openai_client x = Some c |- _ => rewrite H end;
          destruct (create env c (request_messages (preferences x) (strip q))
                      (model_name (preferences x))) as [[[|[[[?|]]] ?]]|?] eqn:Hr;
          [ refine (path_translation_error env _ x k c w q _ Hkey ltac:(done)
                      Hrec Hq Hs _)
          | refine (path_translated env _ x k c w q _ Hkey ltac:(done)
                      Hrec Hq Hs _)
          | refine (path_translation_error env _ x k c w q _ Hkey ltac:(done)
                      Hrec Hq Hs _)
          | refine (path_translation_error env _ x k c w q _ Hkey ltac:(done)
                      Hrec Hq Hs _) ];
          unfold translated_text; rewrite Hr; reflexivity
      end
  end.

Lemma on_event_paths (env : Env) (event : KeywordQueryEvent) (x : Extension) :
  on_event_path env event x (run (KeywordQueryEventListener.on_event env event) x).
Proof.
  unfold_handler.
  destruct (openai_api_key (preferences x)) as [[|k0 k]|] eqn:Hkey;
    [ by apply path_key_missing; rewrite Hkey | | by apply path_key_missing; rewrite Hkey ].
  fold (client_needed x).
  destruct (client_needed x) eqn:Hneed.
  - destruct (OpenAI env (client_kwargs (k0 :: k) (base_url (preferences x))))
      as [c|e] eqn:Hnew.
    + pose proof (reconciled_built env x (k0 :: k) c Hneed Hnew) as Hrec.
      after_reconciled Hkey Hrec.
    + exact (path_init_error env event x (k0 :: k) e Hkey ltac:(done) Hneed Hnew).
  - destruct (client_not_needed x Hneed) as (c & Hc & Hu).
    pose proof (reconciled_cached env x (k0 :: k) c Hneed Hc) as Hrec.
    after_reconciled Hkey Hrec.
Qed.

(** ** The preferences handler, case by case *)

Lemma preferences_key_missing (env : Env) (event : PreferencesEvents) (x : Extension) :
  truthy_opt (openai_api_key (preferences x)) = false ->
  run (PreferencesEventListener.on_event env event) x =
    (Return tt,
     {| extension := {| preferences := preferences x;
                        openai_client := None;
                        _current_base_url := _current_base_url x |};
        trace := [LoggerInfo (py "Preferences updated: "
                              ++ format_dict env (preferences x))] |}).
Proof.
  intros Hkey. unfold_handler.
  by destruct (openai_api_key (preferences x)) as [[|? ?]|].
Qed.

Lemma preferences_init_error (env : Env) (event : PreferencesEvents) (x : Extension)
    (k : str) (e : Exception) :
  openai_api_key (preferences x) = Some k -> k ≠ [] ->
  OpenAI env (client_kwargs k (base_url (preferences x))) = Raise e ->
  openai_client (extension (run (PreferencesEventListener.on_event env event) x).2)
    = None.
Proof.
  intros Hkey Hk Hnew. unfold_handler. rewrite Hkey.
  destruct k; [done|]. by rewrite Hnew.
Qed.

(** ** Inversion of the paths under a usable key *)

Lemma key_present (x : Extension) (k : str) :
  openai_api_key (preferences x) = Some k -> k ≠ [] ->
  truthy_opt (openai_api_key (preferences x)) = true.
Proof. intros -> Hk. by apply truthy_true. Qed.

Lemma reconciled_client (env : Env) (x : Extension) (k : str)
    (c : OpenAIClient) (w : World) :
  reconciled env x k c w -> openai_client (extension w) = Some c.
Proof. by intros [c' ? ?|c' ? ?]. Qed.

Lemma reconciled_requests (env : Env) (x : Extension) (k : str)
    (c : OpenAIClient) (w : World) :
  reconciled env x k c w -> requests (trace w) = [].
Proof. by intros [c' ? ?|c' ? ?]. Qed.

(** * The handlers against their specification *)

(** C6.  When the API key is empty or missing from the preferences, the
    query handler returns exactly one item, titled "OpenAI API Key Missing",
    which is not actionable, and neither the constructor of the client nor a
    chat-completion request is called. *)
Theorem key_missing_one_item_no_call (env : Env) (event : KeywordQueryEvent)
    (x : Extension) :
  truthy_opt (openai_api_key (preferences x)) = false ->
  exists item w,
    run (KeywordQueryEventListener.on_event env event) x
      = (Return (RenderResultList [item]), w)
    /\ name item = py "OpenAI API Key Missing"
    /\ description item = py "Please set your OpenAI API Key in Ulauncher preferences."
    /\ non_actionable item
    /\ constructions (trace w) = []
    /\ requests (trace w) = [].
Proof.
  intros Hkey.
  pose proof (on_event_paths env event x) as Hp.
  inversion Hp as [_ Hrun|k e Hk Hne|k c w Hk Hne|k c w q Hk Hne|k c w q t Hk Hne
                  |k c w q e Hk Hne];
    try (rewrite (key_present x k Hk Hne) in Hkey; discriminate).
  by exists item_key_missing, {| extension := x; trace := [] |}.
Qed.

Lemma key_missing_one_item_no_call_witness :
  truthy_opt (openai_api_key (preferences (OpenAITranslateExtension ∅))) = false
  /\ exists item w,
       run (KeywordQueryEventListener.on_event env_mock query_hello)
           (OpenAITranslateExtension ∅)
         = (Return (RenderResultList [item]), w)
       /\ name item = py "OpenAI API Key Missing"
       /\ description item = py "Please set your OpenAI API Key in Ulauncher preferences."
       /\ non_actionable item
       /\ constructions (trace w) = []
       /\ requests (trace w) = [].
Proof.
  split; [reflexivity|].
  apply (key_missing_one_item_no_call env_mock query_hello (OpenAITranslateExtension ∅)).
  reflexivity.
Defined.

(** C8.  Whatever the preferences, the cached client, the query and the
    behaviour of the library, the handler returns a result list of exactly
    one item. *)
Theorem exactly_one_item (env : Env) (event : KeywordQueryEvent) (x : Extension) :
  exists item w,
    run (KeywordQueryEventListener.on_event env event) x
      = (Return (RenderResultList [item]), w).
Proof.
  pose proof (on_event_paths env event x) as Hp.
  inversion Hp; eauto.
Qed.

Lemma reconciled_constructions (env : Env) (x : Extension) (k : str)
    (c : OpenAIClient) (w : World) (kw : gmap string str) :
  reconciled env x k c w -> kw ∈ constructions (trace w) ->
  kw = client_kwargs k (base_url (preferences x)) /\ OpenAI env kw = Return c.
Proof.
  intros [c' ? ?|c' ? Hnew]; cbn; [by intros ?%elem_of_nil|].
  by intros ->%list_elem_of_singleton.
Qed.

Lemma constructions_snoc_create (tr : list Effect) (c : OpenAIClient)
    (ms : list Message) (m : str) (rest : list Effect) :
  constructions rest = [] ->
  constructions (tr ++ CallCreate c ms m :: rest) = constructions tr.
Proof.
  intros Hrest. unfold constructions in *. rewrite omap_app. cbn.
  by rewrite Hrest, app_nil_r.
Qed.

Lemma requests_snoc_create (tr : list Effect) (c : OpenAIClient)
    (ms : list Message) (m : str) (rest : list Effect) :
  requests tr = [] -> requests rest = [] ->
  requests (tr ++ CallCreate c ms m :: rest) = [(c, ms, m)].
Proof.
  intros Htr Hrest. unfold requests in *. rewrite omap_app. cbn.
  by rewrite Htr, Hrest.
Qed.

Lemma translated_text_raise (r : outcome ChatCompletion) (e : Exception) :
  r = Raise e -> translated_text r = Raise e.
Proof. by intros ->. Qed.

(** C2.  The handler always returns a result list and never raises.  If the
    constructor of the client was called and raised [e], the list is the one
    non-actionable item "Error initializing OpenAI client" whose subtitle is
    the text of [e]; if the chat-completion request was made and raised [e],
    the list is the one non-actionable item "Error during translation" whose
    subtitle starts with the text of [e]. *)
Theorem no_exception_escapes (env : Env) (event : KeywordQueryEvent) (x : Extension) :
  exists item w,
    run (KeywordQueryEventListener.on_event env event) x
      = (Return (RenderResultList [item]), w)
    /\ (forall kw e,
          kw ∈ constructions (trace w) -> OpenAI env kw = Raise e ->
          name item = py "Error initializing OpenAI client"
          /\ description item = exc_str e
          /\ non_actionable item)
    /\ (forall c ms m e,
          (c, ms, m) ∈ requests (trace w) -> create env c ms m = Raise e ->
          name item = py "Error during translation"
          /\ description item = exc_str e ++ 10 :: py "Check logs for details"
          /\ non_actionable item).
Proof.
  pose proof (on_event_paths env event x) as Hp.
  remember (run (KeywordQueryEventListener.on_event env event) x) as r eqn:Hrun.
  destruct Hp as [Hkey|k e Hk Hne Hneed Hnew|k c w Hk Hne Hrec Hq
                 |k c w q Hk Hne Hrec Hq Hq' Hs
                 |k c w q t Hk Hne Hrec Hq Hs Ht
                 |k c w q e Hk Hne Hrec Hq Hs Ht];
    eexists _, _; (split; [reflexivity|]); cbn [trace extension].
  - split; [intros kw e Hin|intros c ms m e Hin];
      cbn in Hin; by apply elem_of_nil in Hin.
  - split.
    + intros kw e' Hin He'. cbn in Hin.
      apply list_elem_of_singleton in Hin. subst kw.
      assert (e' = e) as -> by congruence. by repeat split.
    + intros c ms m e' Hin. cbn in Hin. by apply elem_of_nil in Hin.
  - split.
    + intros kw e Hin He.
      destruct (reconciled_constructions _ _ _ _ _ _ Hrec Hin). congruence.
    + intros c' ms m e. rewrite (reconciled_requests _ _ _ _ _ Hrec).
      by intros ?%elem_of_nil.
  - split.
    + intros kw e Hin He.
      destruct (reconciled_constructions _ _ _ _ _ _ Hrec Hin). congruence.
    + intros c' ms m e. rewrite (reconciled_requests _ _ _ _ _ Hrec).
      by intros ?%elem_of_nil.
  - split.
    + intros kw e. rewrite constructions_snoc_create by done. intros Hin He.
      destruct (reconciled_constructions _ _ _ _ _ _ Hrec Hin). congruence.
    + intros c' ms m e.
      rewrite requests_snoc_create
        by eauto using reconciled_requests.
      intros Hin%list_elem_of_singleton He. simplify_eq.
      rewrite (translated_text_raise _ _ He) in Ht. discriminate.
  - split.
    + intros kw e'. rewrite constructions_snoc_create by done. intros Hin He.
      destruct (reconciled_constructions _ _ _ _ _ _ Hrec Hin). congruence.
    + intros c' ms m e'.
      rewrite requests_snoc_create
        by eauto using reconciled_requests.
      intros Hin%list_elem_of_singleton He. simplify_eq.
      rewrite (translated_text_raise _ _ He) in Ht.
      assert (e' = e) as -> by congruence. by repeat split.
Qed.

Lemma no_exception_escapes_witness :
  exists item w,
    run (KeywordQueryEventListener.on_event env_timeout query_hello)
        (OpenAITranslateExtension prefs_example)
      = (Return (RenderResultList [item]), w)
    /\ name item = py "Error during translation"
    /\ description item
       = py "Request timed out." ++ 10 :: py "Check logs for details"
    /\ non_actionable item.
Proof.
  destruct (no_exception_escapes env_timeout query_hello
              (OpenAITranslateExtension prefs_example))
    as (item & w & Hrun & _ & Hreq).
  exists item, w. split; [exact Hrun|].
  apply (Hreq {| client_id := 1 |}
              (request_messages prefs_example (py "hello"))
              (py "gpt-4o-mini")
              {| exc_class := "APITimeoutError";
                 exc_str := py "Request timed out." |});
    [|reflexivity].
  vm_compute in Hrun. injection Hrun as _ <-.
  vm_compute. apply list_elem_of_here.
Defined.

(** C10.  With an empty or missing API key the query handler leaves the
    extension object, and so the cached client and its recorded base URL,
    exactly as it was; the preferences handler is the one that sets the
    cached client to [None] then (it leaves the recorded base URL alone). *)
Theorem key_missing_frame (env : Env) (x : Extension) :
  truthy_opt (openai_api_key (preferences x)) = false ->
  (forall event,
     extension (run (KeywordQueryEventListener.on_event env event) x).2 = x)
  /\ (forall event,
        let x' := extension (run (PreferencesEventListener.on_event env event) x).2 in
        openai_client x' = None
        /\ _current_base_url x' = _current_base_url x).
Proof.
  intros Hkey. split.
  - intros event.
    pose proof (on_event_paths env event x) as Hp.
    remember (run (KeywordQueryEventListener.on_event env event) x) as r eqn:Hrun.
    destruct Hp as [_|k e Hk Hne _ _|k c w Hk Hne _ _|k c w q Hk Hne _ _ _ _
                   |k c w q t Hk Hne _ _ _ _|k c w q e Hk Hne _ _ _ _];
      try (rewrite (key_present x k Hk Hne) in Hkey; discriminate).
    reflexivity.
  - intros event. by rewrite preferences_key_missing.
Qed.

Lemma key_missing_frame_witness :
  let x := {| preferences := {[ "openai_api_key" := py "" ]};
              openai_client := Some {| client_id := 7 |};
              _current_base_url := Some (py "http://a") |} in
  truthy_opt (openai_api_key (preferences x)) = false
  /\ (forall event,
        extension (run (KeywordQueryEventListener.on_event env_mock event) x).2 = x)
  /\ (forall event,
        let x' := extension
                    (run (PreferencesEventListener.on_event env_mock event) x).2 in
        openai_client x' = None
        /\ _current_base_url x' = _current_base_url x).
Proof.
  intros x. split; [reflexivity|].
  apply (key_missing_frame env_mock x). reflexivity.
Defined.

(** C7.  With a usable API key and a client at hand (the cached one is
    current, or the constructor succeeds), a query that is missing, empty or
    made of whitespace only yields exactly one non-actionable item, "Type
    something to translate", and no chat-completion request is made. *)
Theorem blank_query_prompt (env : Env) (event : KeywordQueryEvent)
    (x : Extension) (k : str) :
  openai_api_key (preferences x) = Some k -> k ≠ [] ->
  (client_needed x = true ->
   exists c, OpenAI env (client_kwargs k (base_url (preferences x))) = Return c) ->
  match get_argument event with
  | None => True
  | Some q => forallb isspace q = true
  end ->
  exists item w,
    run (KeywordQueryEventListener.on_event env event) x
      = (Return (RenderResultList [item]), w)
    /\ name item = py "Type something to translate"
    /\ description item = py "Enter text to translate using OpenAI"
    /\ non_actionable item
    /\ requests (trace w) = [].
Proof.
  intros Hkey Hk Hnew Hblank.
  pose proof (on_event_paths env event x) as Hp.
  remember (run (KeywordQueryEventListener.on_event env event) x) as r eqn:Hrun.
  destruct Hp as [Hmiss|k' e Hk' Hne Hneed Hraise|k' c w Hk' Hne Hrec Hq
                 |k' c w q Hk' Hne Hrec Hq Hq' Hs
                 |k' c w q t Hk' Hne Hrec Hq Hs Ht
                 |k' c w q e Hk' Hne Hrec Hq Hs Ht].
  - rewrite (key_present x k Hkey Hk) in Hmiss. discriminate.
  - destruct (Hnew Hneed) as [c Hc]. congruence.
  - exists item_type_something, w.
    repeat split; eauto using reconciled_requests.
  - exists item_type_something, w.
    repeat split; eauto using reconciled_requests.
  - rewrite Hq in Hblank. by rewrite strip_whitespace_only in Hs.
  - rewrite Hq in Hblank. by rewrite strip_whitespace_only in Hs.
Qed.

Lemma blank_query_prompt_witness :
  let event := {| get_argument := Some [32; 12288; 9] |} in
  let x := OpenAITranslateExtension prefs_example in
  openai_api_key (preferences x) = Some (py "k") /\ py "k" ≠ []
  /\ (client_needed x = true ->
      exists c, OpenAI env_mock (client_kwargs (py "k") (base_url (preferences x)))
                = Return c)
  /\ forallb isspace [32; 12288; 9] = true
  /\ exists item w,
       run (KeywordQueryEventListener.on_event env_mock event) x
         = (Return (RenderResultList [item]), w)
       /\ name item = py "Type something to translate"
       /\ description item = py "Enter text to translate using OpenAI"
       /\ non_actionable item
       /\ requests (trace w) = [].
Proof.
  intros event x.
  assert (Hnew : client_needed x = true ->
            exists c, OpenAI env_mock
                        (client_kwargs (py "k") (base_url (preferences x)))
                      = Return c)
    by (intros _; by exists {| client_id := 1 |}).
  repeat split; [discriminate|exact Hnew|].
  apply (blank_query_prompt env_mock event x (py "k"));
    [reflexivity|discriminate|exact Hnew|reflexivity].
Defined.

(** ** What a request carries *)

Lemma requests_of_run (env : Env) (event : KeywordQueryEvent) (x : Extension)
    (c : OpenAIClient) (ms : list Message) (m : str) :
  (c, ms, m) ∈ requests (trace (run (KeywordQueryEventListener.on_event env event) x).2) ->
  exists q,
    get_argument event = Some q /\ strip q ≠ []
    /\ ms = request_messages (preferences x) (strip q)
    /\ m = model_name (preferences x)
    /\ requests (trace (run (KeywordQueryEventListener.on_event env event) x).2)
       = [(c, ms, m)].
Proof.
  pose proof (on_event_paths env event x) as Hp.
  remember (run (KeywordQueryEventListener.on_event env event) x) as r eqn:Hrun.
  destruct Hp as [Hmiss|k' e Hk' Hne Hneed Hraise|k' c' w Hk' Hne Hrec Hq
                 |k' c' w q Hk' Hne Hrec Hq Hq' Hs
                 |k' c' w q t Hk' Hne Hrec Hq Hs Ht
                 |k' c' w q e Hk' Hne Hrec Hq Hs Ht];
    cbn [snd trace];
    try rewrite (reconciled_requests _ _ _ _ _ Hrec);
    try (rewrite requests_snoc_create by eauto using reconciled_requests);
    try (cbn; by intros ?%elem_of_nil).
  - intros [= -> -> ->]%list_elem_of_singleton. by exists q.
  - intros [= -> -> ->]%list_elem_of_singleton. by exists q.
Qed.

(** C9.  The [custom_prompt] preference is stripped before it is tested: a
    value made of whitespace only gives the default system prompt, and a
    value with whitespace around a core that starts and ends with other
    characters gives that core as the system message. *)
Theorem custom_prompt_is_stripped (env : Env) (event : KeywordQueryEvent)
    (x : Extension) (raw : str) (c : OpenAIClient) (ms : list Message) (m : str) :
  preferences x !! "custom_prompt" = Some raw ->
  (c, ms, m) ∈ requests (trace (run (KeywordQueryEventListener.on_event env event) x).2) ->
  (forallb isspace raw = true ->
   head ms = Some {| role := py "system"; content := default_system_prompt |})
  /\ (forall ws1 core ws2 a b,
        raw = ws1 ++ core ++ ws2 ->
        forallb isspace ws1 = true -> forallb isspace ws2 = true ->
        head core = Some a -> isspace a = false ->
        last core = Some b -> isspace b = false ->
        head ms = Some {| role := py "system"; content := core |}).
Proof.
  intros Hraw Hin.
  destruct (requests_of_run _ _ _ _ _ _ Hin) as (q & _ & _ & -> & _).
  unfold request_messages, system_content, custom_prompt. rewrite Hraw.
  cbn [from_option head]. unfold id. split.
  - intros Hws. by rewrite strip_whitespace_only.
  - intros ws1 core ws2 a b -> H1 H2 Hhd Ha Hlast Hb.
    rewrite (strip_core ws1 core ws2 a b) by done.
    by destruct core.
Qed.

Lemma custom_prompt_is_stripped_witness :
  let x := OpenAITranslateExtension
             {[ "openai_api_key" := py "k"; "custom_prompt" := py " To French. " ]} in
  let w := (run (KeywordQueryEventListener.on_event env_mock query_hello) x).2 in
  preferences x !! "custom_prompt" = Some (py " To French. ")
  /\ ({| client_id := 1 |},
      [ {| role := py "system"; content := py "To French." |};
        {| role := py "user"; content := py "hello" |} ],
      py "gpt-4o-mini") ∈ requests (trace w)
  /\ head [ {| role := py "system"; content := py "To French." |};
            {| role := py "user"; content := py "hello" |} ]
     = Some {| role := py "system"; content := py "To French." |}.
Proof.
  intros x w.
  assert (Hin : ({| client_id := 1 |},
                 [ {| role := py "system"; content := py "To French." |};
                   {| role := py "user"; content := py "hello" |} ],
                 py "gpt-4o-mini") ∈ requests (trace w))
    by (vm_compute; apply list_elem_of_here).
  split; [reflexivity|]. split; [exact Hin|].
  apply (custom_prompt_is_stripped env_mock query_hello x (py " To French. ")
           _ _ _ eq_refl Hin)
    with (ws1 := py " ") (ws2 := py " ") (a := 84) (b := 46);
    reflexivity.
Defined.

(** C5, as stated, fails: with the preference [custom_prompt] set to two
    spaces, a non-empty string, the request carries the default system
    prompt and not the two spaces. *)
Lemma system_message_verbatim_counterexample :
  ~ (forall env event x X c ms m,
       preferences x !! "custom_prompt" = Some X -> X ≠ [] ->
       (c, ms, m) ∈ requests
         (trace (run (KeywordQueryEventListener.on_event env event) x).2) ->
       exists user, ms = [ {| role := py "system"; content := X |}; user ]).
Proof.
  intros H.
  destruct (H env_mock query_hello
              (OpenAITranslateExtension
                 {[ "openai_api_key" := py "k"; "custom_prompt" := py "  " ]})
              (py "  ") {| client_id := 1 |}
              [ {| role := py "system"; content := default_system_prompt |};
                {| role := py "user"; content := py "hello" |} ]
              (py "gpt-4o-mini"))
    as [user Hms].
  - reflexivity.
  - discriminate.
  - vm_compute. apply list_elem_of_here.
  - discriminate Hms.
Qed.

(** C5, amended.  Every request carries two messages, the first with role
    "system": its content is the default system prompt when the
    [custom_prompt] preference is empty once stripped, and the stripped
    preference otherwise; so a custom prompt that has no whitespace around
    it is used exactly as it is. *)
Theorem system_message_content (env : Env) (event : KeywordQueryEvent)
    (x : Extension) (c : OpenAIClient) (ms : list Message) (m : str) :
  (c, ms, m) ∈ requests (trace (run (KeywordQueryEventListener.on_event env event) x).2) ->
  exists sys user,
    ms = [sys; user] /\ role sys = py "system"
    /\ (custom_prompt (preferences x) = [] ->
        content sys = default_system_prompt)
    /\ (custom_prompt (preferences x) ≠ [] ->
        content sys = custom_prompt (preferences x))
    /\ (forall X, preferences x !! "custom_prompt" = Some X ->
                  X ≠ [] -> strip X = X -> content sys = X).
Proof.
  intros Hin.
  destruct (requests_of_run _ _ _ _ _ _ Hin) as (q & _ & _ & -> & _).
  eexists _, _. split; [reflexivity|]. split; [reflexivity|].
  cbn [content]. unfold system_content. repeat split.
  - by intros ->.
  - intros Hcp%truthy_true. by rewrite Hcp.
  - intros X HX Hne Hstrip.
    assert (custom_prompt (preferences x) = X) as ->
      by (unfold custom_prompt; by rewrite HX).
    apply truthy_true in Hne. by rewrite Hne.
Qed.

Lemma system_message_content_witness :
  let x := OpenAITranslateExtension
             {[ "openai_api_key" := py "k"; "custom_prompt" := py "X" ]} in
  let w := (run (KeywordQueryEventListener.on_event env_mock query_hello) x).2 in
  ({| client_id := 1 |},
   [ {| role := py "system"; content := py "X" |};
     {| role := py "user"; content := py "hello" |} ],
   py "gpt-4o-mini") ∈ requests (trace w)
  /\ exists sys user,
       [ {| role := py "system"; content := py "X" |};
         {| role := py "user"; content := py "hello" |} ] = [sys; user]
       /\ role sys = py "system"
       /\ (custom_prompt (preferences x) = [] ->
           content sys = default_system_prompt)
       /\ (custom_prompt (preferences x) ≠ [] ->
           content sys = custom_prompt (preferences x))
       /\ (forall X, preferences x !! "custom_prompt" = Some X ->
                     X ≠ [] -> strip X = X -> content sys = X).
Proof.
  intros x w.
  assert (Hin : ({| client_id := 1 |},
                 [ {| role := py "system"; content := py "X" |};
                   {| role := py "user"; content := py "hello" |} ],
                 py "gpt-4o-mini") ∈ requests (trace w))
    by (vm_compute; apply list_elem_of_here).
  split; [exact Hin|].
  exact (system_message_content env_mock query_hello x _ _ _ Hin).
Defined.

(** C1, as stated, fails: with the configuration and the query of the
    end-to-end example, and a constructor that raises, no request is made. *)
Lemma one_request_counterexample :
  ~ (forall env event x k q,
       openai_api_key (preferences x) = Some k -> k ≠ [] ->
       preferences x !! "base_url" = Some [] ->
       preferences x !! "custom_prompt" = Some [] ->
       preferences x !! "model_name" = Some (py "gpt-4o-mini") ->
       get_argument event = Some q -> strip q ≠ [] ->
       exists c,
         requests (trace (run (KeywordQueryEventListener.on_event env event) x).2)
         = [(c,
             [ {| role := py "system"; content := default_system_prompt |};
               {| role := py "user"; content := strip q |} ],
             py "gpt-4o-mini")]).
Proof.
  intros H.
  destruct (H env_no_client query_hello (OpenAITranslateExtension prefs_example)
              (py "k") (py "hello"))
    as [c Hreq]; try reflexivity; try discriminate.
Qed.

(** C1, amended.  With a usable API key, an empty base URL, an empty custom
    prompt and the model "gpt-4o-mini", a query that is not blank, and a
    client at hand (the cached one is current, or the constructor succeeds),
    the handler makes exactly one request: the default system prompt, then
    the stripped query as the user message, for the model of the
    preferences.  When the request returns a completion whose first choice
    has a content, the result is the one actionable item titled with the
    stripped content, and Enter copies that same text. *)
Theorem translate_end_to_end (env : Env) (event : KeywordQueryEvent)
    (x : Extension) (k q : str) :
  openai_api_key (preferences x) = Some k -> k ≠ [] ->
  base_url (preferences x) = [] ->
  custom_prompt (preferences x) = [] ->
  model_name (preferences x) = py "gpt-4o-mini" ->
  get_argument event = Some q -> strip q ≠ [] ->
  (client_needed x = true ->
   exists c, OpenAI env (client_kwargs k []) = Return c) ->
  exists c r w,
    let messages :=
      [ {| role := py "system"; content := default_system_prompt |};
        {| role := py "user"; content := strip q |} ] in
    run (KeywordQueryEventListener.on_event env event) x = (r, w)
    /\ requests (trace w) = [(c, messages, py "gpt-4o-mini")]
    /\ (forall choice rest t,
          create env c messages (py "gpt-4o-mini")
            = Return {| choices := choice :: rest |} ->
          message_content (message choice) = Some t ->
          exists item,
            r = Return (RenderResultList [item])
            /\ name item = strip t
            /\ description item = py "Press Enter to copy to clipboard"
            /\ on_enter item = Some (CopyToClipboardAction (strip t))
            /\ actionable item).
Proof.
  intros Hkey Hk Hurl Hcp Hmodel Hq Hs Hnew.
  assert (Hms : request_messages (preferences x) (strip q)
                = [ {| role := py "system"; content := default_system_prompt |};
                    {| role := py "user"; content := strip q |} ])
    by (unfold request_messages, system_content; by rewrite Hcp).
  pose proof (on_event_paths env event x) as Hp.
  remember (run (KeywordQueryEventListener.on_event env event) x) as r eqn:Hrun.
  destruct Hp as [Hmiss|k' e Hk' Hne Hneed Hraise|k' c w Hk' Hne Hrec Hq'
                 |k' c w q' Hk' Hne Hrec Hq' Hq'' Hs'
                 |k' c w q' t' Hk' Hne Hrec Hq' Hs' Ht
                 |k' c w q' e Hk' Hne Hrec Hq' Hs' Ht].
  - rewrite (key_present x k Hkey Hk) in Hmiss. discriminate.
  - rewrite Hurl in Hraise. destruct (Hnew Hneed) as [c Hc]. congruence.
  - rewrite Hq in Hq'. apply truthy_false in Hq'. by subst q.
  - congruence.
  - assert (q' = q) as -> by congruence.
    rewrite Hms, Hmodel in Ht.
    exists c. eexists _, _. cbn zeta. split; [reflexivity|]. split.
    + cbn [trace].
      rewrite requests_snoc_create by eauto using reconciled_requests.
      by rewrite Hms, Hmodel.
    + intros choice rest t Hcreate Hcontent.
      rewrite Hcreate in Ht. cbn in Ht. rewrite Hcontent in Ht.
      injection Ht as <-.
      exists (item_translated (strip t)). repeat split. by eexists.
  - assert (q' = q) as -> by congruence.
    rewrite Hms, Hmodel in Ht.
    exists c. eexists _, _. cbn zeta. split; [reflexivity|]. split.
    + cbn [trace].
      rewrite requests_snoc_create by eauto using reconciled_requests.
      by rewrite Hms, Hmodel.
    + intros choice rest t Hcreate Hcontent.
      rewrite Hcreate in Ht. cbn in Ht. rewrite Hcontent in Ht.
      discriminate.
Qed.

Lemma translate_end_to_end_witness :
  exists item w,
    run (KeywordQueryEventListener.on_event env_mock query_hello)
        (OpenAITranslateExtension prefs_example)
      = (Return (RenderResultList [item]), w)
    /\ requests (trace w)
       = [({| client_id := 1 |},
           [ {| role := py "system"; content := default_system_prompt |};
             {| role := py "user"; content := py "hello" |} ],
           py "gpt-4o-mini")]
    /\ name item = [20320; 22909]
    /\ on_enter item = Some (CopyToClipboardAction [20320; 22909])
    /\ actionable item.
Proof.
  destruct (translate_end_to_end env_mock query_hello
              (OpenAITranslateExtension prefs_example) (py "k") (py "hello"))
    as (c & r & w & Hrun & Hreq & Hok);
    [reflexivity|discriminate|reflexivity|reflexivity|reflexivity|reflexivity
    |discriminate|by exists {| client_id := 1 |}|].
  destruct (Hok {| message := {| message_content := Some [20320; 22909] |} |}
                [] [20320; 22909] eq_refl eq_refl)
    as (item & -> & Hname & _ & Henter & Hact).
  exists item, w. change (strip (py "hello")) with (py "hello") in Hreq.
  assert (c = {| client_id := 1 |}) as ->.
  { vm_compute in Hrun. injection Hrun as _ <-.
    vm_compute in Hreq. by injection Hreq. }
  done.
Defined.

(** ** Reconciliation of the client *)

Lemma reconciled_needed (env : Env) (x : Extension) (k : str)
    (c : OpenAIClient) (w : World) :
  client_needed x = true -> reconciled env x k c w ->
  OpenAI env (client_kwargs k (base_url (preferences x))) = Return c
  /\ w = {| extension := with_client x c (base_url (preferences x));
            trace := [CallOpenAI (client_kwargs k (base_url (preferences x)))] |}.
Proof. intros Hneed [c' Hno ?|c' ? Hnew]; [congruence|done]. Qed.

Lemma stale_base_url_needs_client (x : Extension) :
  _current_base_url x ≠ Some (base_url (preferences x)) -> client_needed x = true.
Proof.
  intros Hne. unfold client_needed, KeywordQueryEventListener._need_client_update.
  rewrite (bool_decide_eq_true_2 _ Hne). apply orb_true_r.
Qed.

(** A query that finds the test of [client_needed] true calls the constructor
    once, with the key and base URL of the preferences; the client it
    returns is cached with that base URL and is the one any request of this
    query goes to. *)
Lemma needed_client_is_built (env : Env) (event : KeywordQueryEvent)
    (x : Extension) (k : str) :
  openai_api_key (preferences x) = Some k -> k ≠ [] ->
  client_needed x = true ->
  let kwargs := client_kwargs k (base_url (preferences x)) in
  let w := (run (KeywordQueryEventListener.on_event env event) x).2 in
  constructions (trace w) = [kwargs]
  /\ (forall c, OpenAI env kwargs = Return c ->
        openai_client (extension w) = Some c
        /\ _current_base_url (extension w) = Some (base_url (preferences x)))
  /\ (forall c ms m, (c, ms, m) ∈ requests (trace w) ->
        OpenAI env kwargs = Return c).
Proof.
  intros Hkey Hk Hneed kwargs w. subst kwargs w.
  pose proof (on_event_paths env event x) as Hp.
  remember (run (KeywordQueryEventListener.on_event env event) x) as r eqn:Hrun.
  destruct Hp as [Hmiss|k' e Hk' Hne _ Hraise|k' c w Hk' Hne Hrec Hq
                 |k' c w q Hk' Hne Hrec Hq Hq' Hs
                 |k' c w q t Hk' Hne Hrec Hq Hs Ht
                 |k' c w q e Hk' Hne Hrec Hq Hs Ht];
    [ rewrite (key_present x k Hkey Hk) in Hmiss; discriminate | ..];
    assert (k' = k) as -> by congruence;
    try (destruct (reconciled_needed _ _ _ _ _ Hneed Hrec) as [Hnew ->]);
    cbn [snd trace extension app]; (split; [reflexivity|]); split.
  - intros c Hc. congruence.
  - intros c ms m Hin. cbn in Hin. by apply elem_of_nil in Hin.
  - intros c' Hc'. by assert (c' = c) as -> by congruence.
  - intros c' ms m Hin. cbn in Hin. by apply elem_of_nil in Hin.
  - intros c' Hc'. by assert (c' = c) as -> by congruence.
  - intros c' ms m Hin. cbn in Hin. by apply elem_of_nil in Hin.
  - intros c' Hc'. by assert (c' = c) as -> by congruence.
  - intros c' ms m Hin. cbn in Hin.
    apply list_elem_of_singleton in Hin. by simplify_eq.
  - intros c' Hc'. by assert (c' = c) as -> by congruence.
  - intros c' ms m Hin. cbn in Hin.
    apply list_elem_of_singleton in Hin. by simplify_eq.
Qed.

(** The staleness test compares the stripped preference: a base URL that
    differs from the recorded one by surrounding whitespace only does not
    ask for a new client. *)
Example padded_base_url_keeps_client :
  client_needed
    {| preferences := {[ "openai_api_key" := py "k"; "base_url" := py " http://a " ]};
       openai_client := Some {| client_id := 7 |};
       _current_base_url := Some (py "http://a") |} = false.
Proof. reflexivity. Qed.

(** The subtitle of a failed translation is the text of the error, a line
    feed, and the hint. *)
Example translation_error_subtitle :
  description (item_translation_error
                 {| exc_class := "APITimeoutError";
                    exc_str := py "Request timed out." |})
  = py "Request timed out." ++ [10] ++ py "Check logs for details".
Proof. reflexivity. Qed.

(** C4, as stated, fails: the first query builds a client for [http://a];
    the base URL then changes to [http://b:x], which the constructor
    refuses, and the second query neither builds a client for the new pair
    nor caches one. *)
Lemma rebuild_on_base_url_change_counterexample :
  ~ (forall env1 env2 event1 event2 x0 prefs2 k c_old u1,
       let x1 := extension (run (KeywordQueryEventListener.on_event env1 event1) x0).2 in
       let x2 := extension (run (KeywordQueryEventListener.on_event env2 event2)
                              (with_preferences x1 prefs2)).2 in
       openai_api_key (preferences x0) = Some k ->
       openai_api_key prefs2 = Some k -> k ≠ [] ->
       openai_client x1 = Some c_old -> _current_base_url x1 = Some u1 ->
       base_url prefs2 ≠ u1 ->
       exists c_new,
         OpenAI env2 (client_kwargs k (base_url prefs2)) = Return c_new
         /\ openai_client x2 = Some c_new
         /\ _current_base_url x2 = Some (base_url prefs2)).
Proof.
  intros H.
  destruct (H env_invalid_url env_invalid_url query_hello query_hello
              (OpenAITranslateExtension
                 {[ "openai_api_key" := py "k"; "base_url" := py "http://a" ]})
              {[ "openai_api_key" := py "k"; "base_url" := py "http://b:x" ]}
              (py "k") {| client_id := 2 |} (py "http://a"))
    as (c_new & Hnew & _); try reflexivity; try discriminate.
Qed.

(** C4, amended.  Take two consecutive queries with the same usable API
    key, the first of which leaves a cached client recorded for the base URL
    [u1], and let the stripped base URL of the second differ from [u1].  The
    second query calls the constructor once, with the key and the new base
    URL; when the constructor returns a client, that client and the new base
    URL replace the cached pair; and every request the second query makes
    goes to the client the constructor returned, never to the cached one. *)
Theorem rebuild_on_base_url_change (env1 env2 : Env)
    (event1 event2 : KeywordQueryEvent) (x0 : Extension)
    (prefs2 : gmap string str) (k : str) (c_old : OpenAIClient) (u1 : str) :
  let x1 := extension (run (KeywordQueryEventListener.on_event env1 event1) x0).2 in
  let w2 := (run (KeywordQueryEventListener.on_event env2 event2)
               (with_preferences x1 prefs2)).2 in
  let kwargs := client_kwargs k (base_url prefs2) in
  openai_api_key (preferences x0) = Some k ->
  openai_api_key prefs2 = Some k -> k ≠ [] ->
  openai_client x1 = Some c_old -> _current_base_url x1 = Some u1 ->
  base_url prefs2 ≠ u1 ->
  constructions (trace w2) = [kwargs]
  /\ (forall c_new, OpenAI env2 kwargs = Return c_new ->
        openai_client (extension w2) = Some c_new
        /\ _current_base_url (extension w2) = Some (base_url prefs2))
  /\ (forall c ms m, (c, ms, m) ∈ requests (trace w2) ->
        OpenAI env2 kwargs = Return c).
Proof.
  intros x1 w2 kwargs _ Hkey Hk _ Hu1 Hne.
  apply (needed_client_is_built env2 event2 (with_preferences x1 prefs2) k);
    [done|done|].
  apply stale_base_url_needs_client. cbn [with_preferences _current_base_url preferences].
  rewrite Hu1. congruence.
Qed.

Lemma rebuild_on_base_url_change_witness :
  let x0 := OpenAITranslateExtension
              {[ "openai_api_key" := py "k"; "base_url" := py "http://a" ]} in
  let prefs2 : gmap string str :=
    {[ "openai_api_key" := py "k"; "base_url" := py "http://b" ]} in
  let x1 := extension (run (KeywordQueryEventListener.on_event env_mock query_hello) x0).2 in
  let w2 := (run (KeywordQueryEventListener.on_event env_invalid_url query_hello)
               (with_preferences x1 prefs2)).2 in
  let kwargs := client_kwargs (py "k") (base_url prefs2) in
  (openai_client x1 = Some {| client_id := 1 |}
   /\ _current_base_url x1 = Some (py "http://a")
   /\ base_url prefs2 ≠ py "http://a")
  /\ constructions (trace w2) = [kwargs]
  /\ (forall c_new, OpenAI env_invalid_url kwargs = Return c_new ->
        openai_client (extension w2) = Some c_new
        /\ _current_base_url (extension w2) = Some (base_url prefs2))
  /\ (forall c ms m, (c, ms, m) ∈ requests (trace w2) ->
        OpenAI env_invalid_url kwargs = Return c).
Proof.
  intros x0 prefs2 x1 w2 kwargs.
  split; [repeat split; discriminate|].
  apply (rebuild_on_base_url_change env_mock env_invalid_url query_hello query_hello
           x0 prefs2 (py "k") {| client_id := 1 |} (py "http://a"));
    try reflexivity; discriminate.
Defined.

(** C3.  The query handler meets a constructor that raises while a client
    for another base URL is cached: it returns the one non-actionable item
    with the text of the error, and the extension object still holds the old
    client and its base URL.  The preferences handler, given the same
    failure, sets the client to [None].  A later query for the old base URL
    sends its request to the client that was kept. *)
Lemma construction_failure_keeps_client :
  let x := {| preferences :=
                {[ "openai_api_key" := py "k"; "base_url" := py "http://b:x" ]};
              openai_client := Some {| client_id := 7 |};
              _current_base_url := Some (py "http://a") |} in
  let kwargs : gmap string str :=
    {[ "api_key" := py "k"; "base_url" := py "http://b:x" ]} in
  run (KeywordQueryEventListener.on_event env_invalid_url query_hello) x
    = (Return (RenderResultList
         [ {| icon := py "images/icon.png";
              name := py "Error initializing OpenAI client";
              description := py "Invalid port: 'x'";
              highlightable := false;
              on_enter := None |} ]),
       {| extension := x;
          trace := [ CallOpenAI kwargs;
                     LoggerError (py "Error initializing OpenAI client: Invalid port: 'x'") ] |})
  /\ openai_client
       (extension (run (KeywordQueryEventListener.on_event env_invalid_url query_hello) x).2)
     = Some {| client_id := 7 |}
  /\ openai_client
       (extension (run (PreferencesEventListener.on_event env_invalid_url
                          (PreferencesUpdateEvent "base_url" (py "http://a")
                             (py "http://b:x"))) x).2)
     = None
  /\ requests
       (trace (run (KeywordQueryEventListener.on_event env_invalid_url query_hello)
                 (with_preferences
                    (extension (run (KeywordQueryEventListener.on_event
                                       env_invalid_url query_hello) x).2)
                    {[ "openai_api_key" := py "k"; "base_url" := py "http://a" ]})).2)
     = [({| client_id := 7 |},
         [ {| role := py "system"; content := default_system_prompt |};
           {| role := py "user"; content := py "hello" |} ],
         py "gpt-4o-mini")].
Proof. repeat split. Qed.

(** * Further properties of the handlers *)

(** ** What [strip] removes *)

Lemma lstrip_decompose (s : str) :
  exists ws, s = ws ++ lstrip s /\ forallb isspace ws = true.
Proof.
  induction s as [|c s (ws & Hs & Hws)]; [by exists []|].
  simpl. destruct (isspace c) eqn:Hc.
  - exists (c :: ws). split; [cbn [app]; by f_equal|]. simpl. by rewrite Hc.
  - by exists [].
Qed.

Lemma lstrip_head_nonspace (s : str) (a : N) :
  head (lstrip s) = Some a -> isspace a = false.
Proof.
  induction s as [|c s IH]; [done|].
  simpl. destruct (isspace c) eqn:Hc; [done|]. by intros [= <-].
Qed.

Lemma rstrip_decompose (s : str) :
  exists ws, s = rstrip s ++ ws /\ forallb isspace ws = true.
Proof.
  destruct (lstrip_decompose (reverse s)) as (ws & Hs & Hws).
  exists (reverse ws). split; [|by rewrite forallb_reverse].
  unfold rstrip. rewrite <- reverse_app, <- Hs. by rewrite reverse_involutive.
Qed.

Lemma rstrip_last_nonspace (s : str) (b : N) :
  last (rstrip s) = Some b -> isspace b = false.
Proof.
  unfold rstrip. rewrite last_reverse. apply lstrip_head_nonspace.
Qed.

(** [strip] only takes whitespace away, from both ends, and takes all of
    it: what is left is empty or starts and ends with another character. *)
Lemma strip_decompose (s : str) :
  exists ws1 ws2,
    s = ws1 ++ strip s ++ ws2
    /\ forallb isspace ws1 = true /\ forallb isspace ws2 = true
    /\ (forall a, head (strip s) = Some a -> isspace a = false)
    /\ (forall b, last (strip s) = Some b -> isspace b = false).
Proof.
  destruct (lstrip_decompose s) as (ws1 & Hs1 & Hws1).
  destruct (rstrip_decompose (lstrip s)) as (ws2 & Hs2 & Hws2).
  exists ws1, ws2. unfold strip. repeat split; try done.
  - by rewrite <- Hs2.
  - intros a Ha. apply (lstrip_head_nonspace s). rewrite Hs2.
    by destruct (rstrip (lstrip s)).
  - apply rstrip_last_nonspace.
Qed.

(** ** One query, one call *)

Ltac by_paths env event x :=
  let Hp := fresh "Hp" in
  let Hrun := fresh "Hrun" in
  pose proof (on_event_paths env event x) as Hp;
  remember (run (KeywordQueryEventListener.on_event env event) x) as r eqn:Hrun;
  destruct Hp as [Hmiss|k e Hk Hne Hneed Hraise|k c w Hk Hne Hrec Hq
                 |k c w q Hk Hne Hrec Hq Hq' Hs
                 |k c w q t Hk Hne Hrec Hq Hs Ht
                 |k c w q e Hk Hne Hrec Hq Hs Ht];
  cbn [fst snd trace extension].

Lemma reconciled_not_needed (env : Env) (x : Extension) (k : str)
    (c : OpenAIClient) (w : World) :
  client_needed x = false -> reconciled env x k c w ->
  openai_client x = Some c /\ w = {| extension := x; trace := [] |}.
Proof. intros Hno [c' ? ?|c' Hneed ?]; [done|congruence]. Qed.

Lemma current_not_needed (x : Extension) (c : OpenAIClient) :
  openai_client x = Some c ->
  _current_base_url x = Some (base_url (preferences x)) ->
  client_needed x = false.
Proof.
  intros Hc Hu. unfold client_needed, KeywordQueryEventListener._need_client_update.
  rewrite Hc, Hu. apply orb_false_intro; apply bool_decide_eq_false; naive_solver.
Qed.

Lemma reconciled_trace (env : Env) (x : Extension) (k : str)
    (c : OpenAIClient) (w : World) :
  reconciled env x k c w ->
  (length (constructions (trace w)) <= 1)%nat /\ logged (trace w) = [].
Proof. intros [c' ? ?|c' ? ?]; cbn; split; (done || lia). Qed.

Lemma reconciled_extension (env : Env) (x : Extension) (k : str)
    (c : OpenAIClient) (w : World) :
  reconciled env x k c w ->
  openai_client (extension w) = Some c
  /\ _current_base_url (extension w) = Some (base_url (preferences x))
  /\ preferences (extension w) = preferences x.
Proof.
  intros [c' Hno Hc|c' ? ?]; cbn; [|done].
  by destruct (client_not_needed x Hno) as (c'' & ? & ?).
Qed.

(** X1.  A query calls the constructor at most once and sends at most one
    request, whatever the preferences, the cache and the library do. *)
Theorem at_most_one_call (env : Env) (event : KeywordQueryEvent) (x : Extension) :
  let w := (run (KeywordQueryEventListener.on_event env event) x).2 in
  (length (constructions (trace w)) <= 1)%nat
  /\ (length (requests (trace w)) <= 1)%nat.
Proof.
  cbv zeta. by_paths env event x;
    try (rewrite constructions_snoc_create by done);
    try (rewrite requests_snoc_create by eauto using reconciled_requests);
    try rewrite (reconciled_requests _ _ _ _ _ Hrec);
    try (destruct (reconciled_trace _ _ _ _ _ Hrec) as [Hlen _]);
    cbn; split; (done || lia).
Qed.

(** X2.  A query never touches the preferences and never clears the cache: the
    extension object is left as it was, or, when the test of
    [client_needed] held and the constructor returned a client, it holds
    that client and the base URL of the preferences. *)
Theorem query_updates_cache_only_on_success (env : Env)
    (event : KeywordQueryEvent) (x : Extension) :
  let x' := extension (run (KeywordQueryEventListener.on_event env event) x).2 in
  preferences x' = preferences x
  /\ (x' = x
      \/ exists k c,
           openai_api_key (preferences x) = Some k
           /\ client_needed x = true
           /\ OpenAI env (client_kwargs k (base_url (preferences x))) = Return c
           /\ x' = with_client x c (base_url (preferences x)))
  /\ (is_Some (openai_client x) -> is_Some (openai_client x')).
Proof.
  cbv zeta. by_paths env event x;
    [ by (split; [|split; [left|]]) | by (split; [|split; [left|]]) | ..];
    destruct Hrec as [c' Hno Hc|c' Hneed Hnew]; cbn [extension];
    (split; [done|]); (split; [|by eauto]); (by left) || (right; by exists k, c').
Qed.

(** X3.  While the cached client is recorded for the base URL of the
    preferences, a query does not call the constructor, leaves the
    extension object as it is, and sends its request, if any, to the cached
    client; the API key of the preferences plays no part in this. *)
Theorem current_client_is_reused (env : Env) (event : KeywordQueryEvent)
    (x : Extension) (c0 : OpenAIClient) :
  openai_client x = Some c0 ->
  _current_base_url x = Some (base_url (preferences x)) ->
  let w := (run (KeywordQueryEventListener.on_event env event) x).2 in
  constructions (trace w) = []
  /\ extension w = x
  /\ (forall c' ms m, (c', ms, m) ∈ requests (trace w) -> c' = c0).
Proof.
  intros Hc Hu. pose proof (current_not_needed x c0 Hc Hu) as Hno. cbv zeta.
  by_paths env event x; try congruence;
    try (destruct (reconciled_not_needed _ _ _ _ _ Hno Hrec) as [Hc' ->]);
    cbn [trace extension app]; repeat split;
    intros c' ms m Hin; cbn in Hin;
    try (by apply elem_of_nil in Hin);
    apply list_elem_of_singleton in Hin; simplify_eq; congruence.
Qed.

Lemma current_client_is_reused_witness :
  let x0 := OpenAITranslateExtension {[ "openai_api_key" := py "k1" ]} in
  let x1 := extension (run (KeywordQueryEventListener.on_event env_by_key query_hello) x0).2 in
  let x := with_preferences x1 {[ "openai_api_key" := py "k2" ]} in
  let w := (run (KeywordQueryEventListener.on_event env_by_key query_hello) x).2 in
  (openai_client x = Some {| client_id := 1 |}
   /\ _current_base_url x = Some (base_url (preferences x))
   /\ OpenAI env_by_key (client_kwargs (py "k2") []) = Return {| client_id := 2 |})
  /\ constructions (trace w) = []
  /\ extension w = x
  /\ (forall c' ms m, (c', ms, m) ∈ requests (trace w) -> c' = {| client_id := 1 |}).
Proof.
  intros x0 x1 x w. split; [by repeat split|].
  apply (current_client_is_reused env_by_key query_hello x {| client_id := 1 |});
    reflexivity.
Defined.

(** X4.  Every request goes to the client that is cached when the query ends,
    and that client is then recorded for the base URL of the preferences. *)
Theorem request_goes_to_cached_client (env : Env) (event : KeywordQueryEvent)
    (x : Extension) (c0 : OpenAIClient) (ms : list Message) (m : str) :
  let w := (run (KeywordQueryEventListener.on_event env event) x).2 in
  (c0, ms, m) ∈ requests (trace w) ->
  openai_client (extension w) = Some c0
  /\ _current_base_url (extension w) = Some (base_url (preferences x)).
Proof.
  cbv zeta. by_paths env event x;
    try rewrite (reconciled_requests _ _ _ _ _ Hrec);
    try (rewrite requests_snoc_create by eauto using reconciled_requests);
    intros Hin; cbn in Hin; try (by apply elem_of_nil in Hin);
    apply list_elem_of_singleton in Hin; simplify_eq;
    by destruct (reconciled_extension _ _ _ _ _ Hrec) as (? & ? & ?).
Qed.

Lemma request_goes_to_cached_client_witness :
  let x := OpenAITranslateExtension prefs_example in
  let w := (run (KeywordQueryEventListener.on_event env_mock query_hello) x).2 in
  ({| client_id := 1 |}, request_messages prefs_example (py "hello"),
   py "gpt-4o-mini") ∈ requests (trace w)
  /\ openai_client (extension w) = Some {| client_id := 1 |}
  /\ _current_base_url (extension w) = Some (base_url (preferences x)).
Proof.
  intros x w.
  assert (Hin : ({| client_id := 1 |}, request_messages prefs_example (py "hello"),
                 py "gpt-4o-mini") ∈ requests (trace w))
    by (vm_compute; apply list_elem_of_here).
  split; [exact Hin|].
  exact (request_goes_to_cached_client env_mock query_hello x _ _ _ Hin).
Defined.

(** ** What is sent *)

(** X5.  The user message of a request is the query with the whitespace at its
    two ends removed and nothing else changed; it is never empty and never
    starts or ends with whitespace. *)
Theorem user_message_is_trimmed_query (env : Env) (event : KeywordQueryEvent)
    (x : Extension) (c0 : OpenAIClient) (ms : list Message) (m : str) :
  (c0, ms, m) ∈ requests (trace (run (KeywordQueryEventListener.on_event env event) x).2) ->
  exists q sys text ws1 ws2,
    get_argument event = Some q
    /\ ms = [sys; {| role := py "user"; content := text |}]
    /\ q = ws1 ++ text ++ ws2
    /\ forallb isspace ws1 = true /\ forallb isspace ws2 = true
    /\ (exists a, head text = Some a /\ isspace a = false)
    /\ (exists b, last text = Some b /\ isspace b = false).
Proof.
  intros Hin.
  destruct (requests_of_run _ _ _ _ _ _ Hin) as (q & Hq & Hs & -> & _).
  destruct (strip_decompose q) as (ws1 & ws2 & Hdec & H1 & H2 & Hhd & Hlast).
  exists q. eexists _, (strip q), ws1, ws2.
  split; [done|]. split; [reflexivity|]. repeat split; try done.
  - destruct (strip q) as [|a s] eqn:E; [done|]. exists a. split; [done|]. by apply Hhd.
  - destruct (last (strip q)) as [b|] eqn:E.
    + exists b. split; [done|]. by apply Hlast.
    + by apply last_None in E.
Qed.

Lemma user_message_is_trimmed_query_witness :
  let event := {| get_argument := Some ([12288; 32] ++ py "a b" ++ [10]) |} in
  let x := OpenAITranslateExtension prefs_example in
  let w := (run (KeywordQueryEventListener.on_event env_mock event) x).2 in
  ({| client_id := 1 |}, request_messages prefs_example (py "a b"),
   py "gpt-4o-mini") ∈ requests (trace w)
  /\ exists q sys text ws1 ws2,
       get_argument event = Some q
       /\ request_messages prefs_example (py "a b")
          = [sys; {| role := py "user"; content := text |}]
       /\ q = ws1 ++ text ++ ws2
       /\ forallb isspace ws1 = true /\ forallb isspace ws2 = true
       /\ (exists a, head text = Some a /\ isspace a = false)
       /\ (exists b, last text = Some b /\ isspace b = false).
Proof.
  intros event x w.
  assert (Hin : ({| client_id := 1 |}, request_messages prefs_example (py "a b"),
                 py "gpt-4o-mini") ∈ requests (trace w))
    by (vm_compute; apply list_elem_of_here).
  split; [exact Hin|].
  exact (user_message_is_trimmed_query env_mock event x _ _ _ Hin).
Defined.



Lemma client_kwargs_api_key (k u : str) : client_kwargs k u !! "api_key" = Some k.
Proof.
  unfold client_kwargs. destruct (truthy u).
  - rewrite lookup_insert_ne by done. apply lookup_singleton_eq.
  - apply lookup_singleton_eq.
Qed.

Lemma client_kwargs_base_url (k u : str) :
  client_kwargs k u !! "base_url" = if truthy u then Some u else None.
Proof.
  unfold client_kwargs. destruct (truthy u).
  - apply lookup_insert_eq.
  - by rewrite lookup_singleton_ne.
Qed.

Lemma client_kwargs_keys (k u : str) (key : string) :
  is_Some (client_kwargs k u !! key) -> key = "api_key" \/ key = "base_url".
Proof.
  unfold client_kwargs. intros [v Hv].
  destruct (decide (key = "api_key")) as [|Hk1]; [by left|].
  destruct (decide (key = "base_url")) as [|Hk2]; [by right|].
  destruct (truthy u).
  - rewrite lookup_insert_ne, lookup_singleton_ne in Hv by done. done.
  - rewrite lookup_singleton_ne in Hv by done. done.
Qed.

(** X7.  The constructor is given the API key exactly as the preferences hold
    it, and a base URL only when the stripped preference is not empty: it is
    never given an empty base URL, and never any other keyword. *)
Theorem constructor_arguments (env : Env) (event : KeywordQueryEvent)
    (x : Extension) (kw : gmap string str) :
  kw ∈ constructions (trace (run (KeywordQueryEventListener.on_event env event) x).2) ->
  (exists k0, preferences x !! "openai_api_key" = Some k0 /\ k0 ≠ []
              /\ kw !! "api_key" = Some k0)
  /\ kw !! "base_url" = (if truthy (base_url (preferences x))
                         then Some (base_url (preferences x)) else None)
  /\ kw !! "base_url" ≠ Some []
  /\ (forall key, is_Some (kw !! key) -> key = "api_key" \/ key = "base_url").
Proof.
  assert (Hshape : forall k0,
            openai_api_key (preferences x) = Some k0 -> k0 ≠ [] ->
            kw = client_kwargs k0 (base_url (preferences x)) ->
            (exists k0, preferences x !! "openai_api_key" = Some k0 /\ k0 ≠ []
                        /\ kw !! "api_key" = Some k0)
            /\ kw !! "base_url" = (if truthy (base_url (preferences x))
                                   then Some (base_url (preferences x)) else None)
            /\ kw !! "base_url" ≠ Some []
            /\ (forall key, is_Some (kw !! key) -> key = "api_key" \/ key = "base_url")).
  { intros k0 Hk0 Hne0 ->. split; [|split; [|split]].
    - exists k0. by rewrite client_kwargs_api_key.
    - apply client_kwargs_base_url.
    - rewrite client_kwargs_base_url.
      by destruct (base_url (preferences x)).
    - apply client_kwargs_keys. }
  by_paths env event x;
    try (rewrite constructions_snoc_create by done);
    intros Hin; cbn in Hin.
  - by apply elem_of_nil in Hin.
  - apply list_elem_of_singleton in Hin. eauto.
  - destruct (reconciled_constructions _ _ _ _ _ _ Hrec Hin). eauto.
  - destruct (reconciled_constructions _ _ _ _ _ _ Hrec Hin). eauto.
  - destruct (reconciled_constructions _ _ _ _ _ _ Hrec Hin). eauto.
  - destruct (reconciled_constructions _ _ _ _ _ _ Hrec Hin). eauto.
Qed.

Lemma constructor_arguments_witness :
  let x := OpenAITranslateExtension
             {[ "openai_api_key" := py " k "; "base_url" := py "  " ]} in
  let w := (run (KeywordQueryEventListener.on_event env_mock query_hello) x).2 in
  let kw : gmap string str := {[ "api_key" := py " k " ]} in
  kw ∈ constructions (trace w)
  /\ (exists k0, preferences x !! "openai_api_key" = Some k0 /\ k0 ≠ []
                 /\ kw !! "api_key" = Some k0)
  /\ kw !! "base_url" = (if truthy (base_url (preferences x))
                         then Some (base_url (preferences x)) else None)
  /\ kw !! "base_url" ≠ Some []
  /\ (forall key, is_Some (kw !! key) -> key = "api_key" \/ key = "base_url").
Proof.
  intros x w kw.
  assert (Hin : kw ∈ constructions (trace w))
    by (vm_compute; apply list_elem_of_here).
  split; [exact Hin|].
  exact (constructor_arguments env_mock query_hello x kw Hin).
Defined.

(** ** What is rendered and what is logged *)

(** X8.  When the request returns a completion, the item follows its first
    choice: no choice at all, or a first choice whose content is [None],
    gives the non-actionable item "Error during translation" with the text
    of the [IndexError] or [AttributeError]; a content gives the actionable
    item titled with the stripped content, which Enter copies. *)
Theorem response_rendering (env : Env) (event : KeywordQueryEvent)
    (x : Extension) (c0 : OpenAIClient) (ms : list Message) (m : str)
    (completion : ChatCompletion) :
  let r := run (KeywordQueryEventListener.on_event env event) x in
  (c0, ms, m) ∈ requests (trace r.2) ->
  create env c0 ms m = Return completion ->
  exists item,
    r.1 = Return (RenderResultList [item])
    /\ match choices completion with
       | [] =>
           name item = py "Error during translation"
           /\ description item
              = py "list index out of range" ++ 10 :: py "Check logs for details"
           /\ non_actionable item
       | choice :: _ =>
           match message_content (message choice) with
           | None =>
               name item = py "Error during translation"
               /\ description item
                  = py "'NoneType' object has no attribute 'strip'"
                    ++ 10 :: py "Check logs for details"
               /\ non_actionable item
           | Some text =>
               name item = strip text
               /\ on_enter item = Some (CopyToClipboardAction (strip text))
               /\ actionable item
           end
       end.
Proof.
  cbv zeta. by_paths env event x;
    try rewrite (reconciled_requests _ _ _ _ _ Hrec);
    try (rewrite requests_snoc_create by eauto using reconciled_requests);
    intros Hin Hcreate; cbn in Hin; try (by apply elem_of_nil in Hin);
    apply list_elem_of_singleton in Hin; simplify_eq;
    destruct completion as [[|[[[text|]]] rest]];
    rewrite Hcreate in Ht; cbn in Ht; simplify_eq;
    eexists; (split; [reflexivity|]); cbn; repeat split; by eexists.
Qed.

Lemma response_rendering_witness :
  let x := OpenAITranslateExtension prefs_example in
  let r := run (KeywordQueryEventListener.on_event env_no_choice query_hello) x in
  ({| client_id := 1 |}, request_messages prefs_example (py "hello"),
   py "gpt-4o-mini") ∈ requests (trace r.2)
  /\ exists item,
       r.1 = Return (RenderResultList [item])
       /\ name item = py "Error during translation"
       /\ description item
          = py "list index out of range" ++ 10 :: py "Check logs for details"
       /\ non_actionable item.
Proof.
  intros x r.
  assert (Hin : ({| client_id := 1 |}, request_messages prefs_example (py "hello"),
                 py "gpt-4o-mini") ∈ requests (trace r.2))
    by (vm_compute; apply list_elem_of_here).
  split; [exact Hin|].
  exact (response_rendering env_no_choice query_hello x _ _ _
           {| choices := [] |} Hin eq_refl).
Defined.

Lemma logged_snoc_create (tr : list Effect) (c : OpenAIClient)
    (ms : list Message) (m : str) (rest : list Effect) :
  logged (tr ++ CallCreate c ms m :: rest) = logged tr ++ logged rest.
Proof. unfold logged. by rewrite omap_app. Qed.

(** X9.  The query handler writes an error record exactly when it returns one of
    its two error items, one record then, with the text of the exception
    the item shows; the other three items come with no error record. *)
Theorem error_item_is_logged (env : Env) (event : KeywordQueryEvent) (x : Extension) :
  let r := run (KeywordQueryEventListener.on_event env event) x in
  exists item,
    r.1 = Return (RenderResultList [item])
    /\ ((logged (trace r.2) = []
         /\ (item = item_key_missing \/ item = item_type_something
             \/ exists text, item = item_translated text))
        \/ (exists e,
              item = item_init_error e
              /\ logged (trace r.2)
                 = [py "Error initializing OpenAI client: " ++ exc_str e])
        \/ (exists e,
              item = item_translation_error e
              /\ logged (trace r.2)
                 = [py "Error during translation: " ++ exc_str e])).
Proof.
  cbv zeta. by_paths env event x; eexists; (split; [reflexivity|]);
    try (rewrite logged_snoc_create);
    try (destruct (reconciled_trace _ _ _ _ _ Hrec) as [_ ->]).
  - left. split; [done|]. by left.
  - right. left. by exists e.
  - left. split; [done|]. right. by left.
  - left. split; [done|]. right. by left.
  - left. split; [done|]. right. right. by exists t.
  - right. right. by exists e.
Qed.

(** ** The preferences handler *)

Lemma preferences_built (env : Env) (event : PreferencesEvents) (x : Extension)
    (k : str) (c : OpenAIClient) :
  openai_api_key (preferences x) = Some k -> k ≠ [] ->
  OpenAI env (client_kwargs k (base_url (preferences x))) = Return c ->
  run (PreferencesEventListener.on_event env event) x =
    (Return tt,
     {| extension := with_client x c (base_url (preferences x));
        trace := [LoggerInfo (py "Preferences updated: "
                              ++ format_dict env (preferences x));
                  CallOpenAI (client_kwargs k (base_url (preferences x)))] |}).
Proof.
  intros Hkey Hk Hnew. unfold_handler. rewrite Hkey.
  destruct k; [done|]. by rewrite Hnew.
Qed.

Lemma preferences_failed (env : Env) (event : PreferencesEvents) (x : Extension)
    (k : str) (e : Exception) :
  openai_api_key (preferences x) = Some k -> k ≠ [] ->
  OpenAI env (client_kwargs k (base_url (preferences x))) = Raise e ->
  run (PreferencesEventListener.on_event env event) x =
    (Return tt,
     {| extension := {| preferences := preferences x;
                        openai_client := None;
                        _current_base_url := _current_base_url x |};
        trace := [LoggerInfo (py "Preferences updated: "
                              ++ format_dict env (preferences x));
                  CallOpenAI (client_kwargs k (base_url (preferences x)));
                  LoggerError (py "Error updating OpenAI client: " ++ exc_str e)] |}).
Proof.
  intros Hkey Hk Hnew. unfold_handler. rewrite Hkey.
  destruct k; [done|]. by rewrite Hnew.
Qed.

Lemma key_cases (x : Extension) :
  truthy_opt (openai_api_key (preferences x)) = false
  \/ exists k, openai_api_key (preferences x) = Some k /\ k ≠ [].
Proof.
  destruct (openai_api_key (preferences x)) as [[|a k]|]; eauto.
Qed.

(** X10.  The preferences handler never raises, whatever the constructor does; it
    leaves the preferences as they are, calls the constructor at most once
    and sends no request. *)
Theorem preferences_handler_is_safe (env : Env) (event : PreferencesEvents)
    (x : Extension) :
  let r := run (PreferencesEventListener.on_event env event) x in
  r.1 = Return tt
  /\ preferences (extension r.2) = preferences x
  /\ (length (constructions (trace r.2)) <= 1)%nat
  /\ requests (trace r.2) = [].
Proof.
  cbv zeta. destruct (key_cases x) as [Hmiss|(k & Hkey & Hk)].
  - rewrite preferences_key_missing by done. cbn. repeat split; lia.
  - destruct (OpenAI env (client_kwargs k (base_url (preferences x))))
      as [c|e] eqn:Hnew.
    + rewrite (preferences_built env event x k c) by done. cbn. repeat split; lia.
    + rewrite (preferences_failed env event x k e) by done. cbn. repeat split; lia.
Qed.

(** X11.  With a usable API key the preferences handler calls the constructor
    whether or not the cached client is current.  A client that is
    returned is cached with the stripped base URL; an exception empties
    the cache, leaves the recorded base URL as it was and is written to the
    log. *)
Theorem preferences_handler_rebuilds (env : Env) (event : PreferencesEvents)
    (x : Extension) (k : str) :
  openai_api_key (preferences x) = Some k -> k ≠ [] ->
  let kwargs := client_kwargs k (base_url (preferences x)) in
  let w := (run (PreferencesEventListener.on_event env event) x).2 in
  constructions (trace w) = [kwargs]
  /\ (forall c, OpenAI env kwargs = Return c ->
        extension w = with_client x c (base_url (preferences x))
        /\ logged (trace w) = [])
  /\ (forall e, OpenAI env kwargs = Raise e ->
        openai_client (extension w) = None
        /\ _current_base_url (extension w) = _current_base_url x
        /\ logged (trace w) = [py "Error updating OpenAI client: " ++ exc_str e]).
Proof.
  intros Hkey Hk. cbv zeta.
  destruct (OpenAI env (client_kwargs k (base_url (preferences x))))
    as [c|e] eqn:Hnew.
  - rewrite (preferences_built env event x k c) by done.
    repeat split; intros; by simplify_eq.
  - rewrite (preferences_failed env event x k e) by done.
    repeat split; intros; by simplify_eq.
Qed.

Lemma preferences_handler_rebuilds_witness :
  let x := {| preferences := {[ "openai_api_key" := py "k"; "base_url" := py "http://b:x" ]};
              openai_client := Some {| client_id := 7 |};
              _current_base_url := Some (py "http://b:x") |} in
  let kwargs := client_kwargs (py "k") (base_url (preferences x)) in
  let w := (run (PreferencesEventListener.on_event env_invalid_url
                   (PreferencesEvent (preferences x))) x).2 in
  client_needed x = false
  /\ constructions (trace w) = [kwargs]
  /\ (forall c, OpenAI env_invalid_url kwargs = Return c ->
        extension w = with_client x c (base_url (preferences x))
        /\ logged (trace w) = [])
  /\ (forall e, OpenAI env_invalid_url kwargs = Raise e ->
        openai_client (extension w) = None
        /\ _current_base_url (extension w) = _current_base_url x
        /\ logged (trace w) = [py "Error updating OpenAI client: " ++ exc_str e]).
Proof.
  intros x kwargs w. split; [reflexivity|].
  apply (preferences_handler_rebuilds env_invalid_url
           (PreferencesEvent (preferences x)) x (py "k"));
    [reflexivity|discriminate].
Defined.

(** ** The two handlers, one after the other *)

(** X12.  A client that the preferences handler built serves the next query under
    the same preferences: the query calls no constructor and sends its
    request, if any, to that client. *)
Theorem query_after_preferences (env1 env2 : Env) (event1 : PreferencesEvents)
    (event2 : KeywordQueryEvent) (x : Extension) (k0 : str) (c0 : OpenAIClient) :
  openai_api_key (preferences x) = Some k0 -> k0 ≠ [] ->
  OpenAI env1 (client_kwargs k0 (base_url (preferences x))) = Return c0 ->
  let x1 := extension (run (PreferencesEventListener.on_event env1 event1) x).2 in
  let w2 := (run (KeywordQueryEventListener.on_event env2 event2) x1).2 in
  constructions (trace w2) = []
  /\ extension w2 = x1
  /\ (forall c' ms m, (c', ms, m) ∈ requests (trace w2) -> c' = c0).
Proof.
  intros Hkey0 Hk0 Hnew0. cbv zeta.
  rewrite (preferences_built env1 event1 x k0 c0) by done.
  clear Hkey0 Hk0 Hnew0. cbn [snd extension].
  set (x1 := with_client x c0 (base_url (preferences x))).
  assert (Hno : client_needed x1 = false) by by apply (current_not_needed x1 c0).
  by_paths env2 event2 x1; try congruence;
    try (destruct (reconciled_not_needed _ _ _ _ _ Hno Hrec) as [Hc' ->]);
    cbn [trace extension app]; repeat split;
    intros c' ms m Hin; cbn in Hin;
    try (by apply elem_of_nil in Hin);
    apply list_elem_of_singleton in Hin; simplify_eq; cbn in Hc'; congruence.
Qed.

Lemma query_after_preferences_witness :
  let x := OpenAITranslateExtension prefs_example in
  let x1 := extension (run (PreferencesEventListener.on_event env_mock
                              (PreferencesEvent prefs_example)) x).2 in
  let w2 := (run (KeywordQueryEventListener.on_event env_timeout query_hello) x1).2 in
  constructions (trace w2) = []
  /\ extension w2 = x1
  /\ (forall c' ms m, (c', ms, m) ∈ requests (trace w2) -> c' = {| client_id := 1 |}).
Proof.
  intros x x1 w2.
  apply (query_after_preferences env_mock env_timeout
           (PreferencesEvent prefs_example) query_hello x (py "k") {| client_id := 1 |});
    [reflexivity|discriminate|reflexivity].
Defined.

(** X13.  Without a cached client, a query with a usable API key calls the
    constructor, once, with the key and the stripped base URL: so does the
    first query after start-up. *)
Theorem missing_client_is_built (env : Env) (event : KeywordQueryEvent)
    (x : Extension) (k : str) :
  openai_client x = None ->
  openai_api_key (preferences x) = Some k -> k ≠ [] ->
  constructions (trace (run (KeywordQueryEventListener.on_event env event) x).2)
  = [client_kwargs k (base_url (preferences x))].
Proof.
  intros Hnone Hkey Hk.
  apply (needed_client_is_built env event x k Hkey Hk).
  unfold client_needed. by rewrite Hnone.
Qed.

Lemma missing_client_is_built_witness :
  let x := OpenAITranslateExtension prefs_example in
  openai_client x = None
  /\ constructions (trace (run (KeywordQueryEventListener.on_event env_mock query_hello) x).2)
     = [client_kwargs (py "k") (base_url (preferences x))].
Proof.
  intros x. split; [reflexivity|].
  apply (missing_client_is_built env_mock query_hello x (py "k"));
    [reflexivity|reflexivity|discriminate].
Defined.

(** X14.  After the preferences handler has emptied the cache, because the API
    key was missing or because the constructor raised, the next query with a
    usable API key calls the constructor again, even for the base URL that
    is still recorded. *)
Theorem query_after_dropped_client (env1 env2 : Env) (event1 : PreferencesEvents)
    (event2 : KeywordQueryEvent) (x : Extension) (prefs2 : gmap string str)
    (k : str) :
  (truthy_opt (openai_api_key (preferences x)) = false
   \/ exists k1 e, openai_api_key (preferences x) = Some k1 /\ k1 ≠ []
                   /\ OpenAI env1 (client_kwargs k1 (base_url (preferences x)))
                      = Raise e) ->
  openai_api_key prefs2 = Some k -> k ≠ [] ->
  let x1 := extension (run (PreferencesEventListener.on_event env1 event1) x).2 in
  _current_base_url x1 = _current_base_url x
  /\ constructions
       (trace (run (KeywordQueryEventListener.on_event env2 event2)
                 (with_preferences x1 prefs2)).2)
     = [client_kwargs k (base_url prefs2)].
Proof.
  intros Hdrop Hkey Hk. cbv zeta.
  assert (Hx1 : openai_client
                  (extension (run (PreferencesEventListener.on_event env1 event1) x).2)
                = None
                /\ _current_base_url
                     (extension (run (PreferencesEventListener.on_event env1 event1) x).2)
                   = _current_base_url x).
  { destruct Hdrop as [Hmiss|(k1 & e & Hk1 & Hne1 & Hraise)].
    - by rewrite preferences_key_missing.
    - by rewrite (preferences_failed env1 event1 x k1 e). }
  destruct Hx1 as [Hnone Hurl]. split; [done|].
  apply (needed_client_is_built env2 event2 (with_preferences _ prefs2) k Hkey Hk).
  unfold client_needed. cbn [with_preferences openai_client]. by rewrite Hnone.
Qed.

Lemma query_after_dropped_client_witness :
  let x := {| preferences := {[ "base_url" := py "http://a" ]};
              openai_client := Some {| client_id := 7 |};
              _current_base_url := Some (py "http://a") |} in
  let prefs2 : gmap string str :=
    {[ "openai_api_key" := py "k"; "base_url" := py "http://a" ]} in
  let x1 := extension (run (PreferencesEventListener.on_event env_mock
                              (PreferencesUpdateEvent "openai_api_key" (py "k") (py ""))) x).2 in
  truthy_opt (openai_api_key (preferences x)) = false
  /\ _current_base_url x1 = _current_base_url x
  /\ constructions
       (trace (run (KeywordQueryEventListener.on_event env_mock query_hello)
                 (with_preferences x1 prefs2)).2)
     = [client_kwargs (py "k") (base_url prefs2)].
Proof.
  intros x prefs2 x1. split; [reflexivity|].
  apply (query_after_dropped_client env_mock env_mock
           (PreferencesUpdateEvent "openai_api_key" (py "k") (py ""))
           query_hello x prefs2 (py "k"));
    [by left|reflexivity|discriminate].
Defined.

Lemma not_needed_run (env : Env) (event : KeywordQueryEvent) (x : Extension) :
  client_needed x = false ->
  let w := (run (KeywordQueryEventListener.on_event env event) x).2 in
  constructions (trace w) = [] /\ extension w = x.
Proof.
  intros Hno. cbv zeta.
  by_paths env event x; try congruence;
    try (destruct (reconciled_not_needed _ _ _ _ _ Hno Hrec) as [Hc' ->]);
    by cbn [trace extension app].
Qed.

(** X15.  The client is built once: after a query that had a usable API key and
    got its client, a second query under the same preferences calls no
    constructor and leaves the extension object as the first left it. *)
Theorem client_is_built_once (env1 env2 : Env) (event1 event2 : KeywordQueryEvent)
    (x : Extension) (k0 : str) :
  openai_api_key (preferences x) = Some k0 -> k0 ≠ [] ->
  (client_needed x = true ->
   exists c, OpenAI env1 (client_kwargs k0 (base_url (preferences x))) = Return c) ->
  let x1 := extension (run (KeywordQueryEventListener.on_event env1 event1) x).2 in
  let w2 := (run (KeywordQueryEventListener.on_event env2 event2) x1).2 in
  constructions (trace w2) = [] /\ extension w2 = x1.
Proof.
  intros Hkey0 Hk0 Hnew0. cbv zeta.
  apply not_needed_run.
  by_paths env1 event1 x.
  - rewrite (key_present x k0 Hkey0 Hk0) in Hmiss. discriminate.
  - destruct (Hnew0 Hneed) as [c Hc]. congruence.
  - destruct (reconciled_extension _ _ _ _ _ Hrec) as (Hc & Hu & Hp').
    apply (current_not_needed _ c); [done|]. by rewrite Hp'.
  - destruct (reconciled_extension _ _ _ _ _ Hrec) as (Hc & Hu & Hp').
    apply (current_not_needed _ c); [done|]. by rewrite Hp'.
  - destruct (reconciled_extension _ _ _ _ _ Hrec) as (Hc & Hu & Hp').
    apply (current_not_needed _ c); [done|]. by rewrite Hp'.
  - destruct (reconciled_extension _ _ _ _ _ Hrec) as (Hc & Hu & Hp').
    apply (current_not_needed _ c); [done|]. by rewrite Hp'.
Qed.

Lemma client_is_built_once_witness :
  let x := OpenAITranslateExtension prefs_example in
  let x1 := extension (run (KeywordQueryEventListener.on_event env_mock query_hello) x).2 in
  let w2 := (run (KeywordQueryEventListener.on_event env_no_client query_hello) x1).2 in
  constructions (trace (run (KeywordQueryEventListener.on_event env_mock query_hello) x).2)
  = [client_kwargs (py "k") []]
  /\ constructions (trace w2) = [] /\ extension w2 = x1.
Proof.
  intros x x1 w2. split; [reflexivity|].
  apply (client_is_built_once env_mock env_no_client query_hello query_hello x (py "k"));
    [reflexivity|discriminate|by exists {| client_id := 1 |}].
Defined.

(** X16.  A failed construction is not remembered: the query that met it leaves
    the extension object as it was, so the next query under the same
    preferences calls the constructor again with the same arguments. *)
Theorem failed_construction_is_retried (env1 env2 : Env)
    (event1 event2 : KeywordQueryEvent) (x : Extension) (k0 : str) (e0 : Exception) :
  openai_api_key (preferences x) = Some k0 -> k0 ≠ [] ->
  client_needed x = true ->
  OpenAI env1 (client_kwargs k0 (base_url (preferences x))) = Raise e0 ->
  let x1 := extension (run (KeywordQueryEventListener.on_event env1 event1) x).2 in
  let w2 := (run (KeywordQueryEventListener.on_event env2 event2) x1).2 in
  x1 = x
  /\ constructions (trace w2) = [client_kwargs k0 (base_url (preferences x))].
Proof.
  intros Hkey0 Hk0 Hneed0 Hraise0. cbv zeta.
  assert (Hx1 : extension (run (KeywordQueryEventListener.on_event env1 event1) x).2 = x).
  { by_paths env1 event1 x; try done;
      assert (k = k0) as -> by congruence;
      destruct (reconciled_needed _ _ _ _ _ Hneed0 Hrec) as [Hnew _]; congruence. }
  rewrite Hx1. split; [done|].
  by apply (needed_client_is_built env2 event2 x k0).
Qed.

Lemma failed_construction_is_retried_witness :
  let x := OpenAITranslateExtension prefs_example in
  let x1 := extension (run (KeywordQueryEventListener.on_event env_no_client query_hello) x).2 in
  let w2 := (run (KeywordQueryEventListener.on_event env_mock query_hello) x1).2 in
  client_needed x = true
  /\ x1 = x
  /\ constructions (trace w2) = [client_kwargs (py "k") (base_url (preferences x))].
Proof.
  intros x x1 w2. split; [reflexivity|].
  apply (failed_construction_is_retried env_no_client env_mock query_hello query_hello
           x (py "k")
           {| exc_class := "TypeError";
              exc_str := py "Client.__init__() got an unexpected keyword argument 'proxies'" |});
    [reflexivity|discriminate|reflexivity|reflexivity].
Defined.
